(** * Teacher scheduling problem: the cost model of [teachers.py]

    A shallow embedding of the class [TeacherSchedulingProblem] and of the
    Python fragments its methods rely on (slices, [range], [zip], [sum],
    insertion-ordered dictionaries, exceptions), followed by the properties of
    the encoding and of the violation counts. *)

From Stdlib Require Import ZArith String List Bool Lia PeanoNat Permutation.
Import ListNotations.

Open Scope Z_scope.

(** ** The Python fragment used by the class *)

Module Py.

(** Exceptions the modelled code can raise. *)
Inductive exn : Type :=
| ValueError (msg : string) (args : list Z)
| ZeroDivisionError
| IndexError
| KeyError (key : string).

(** A computation either returns or raises. *)
Inductive result (A : Type) : Type :=
| Ok (a : A)
| Raise (e : exn).

Arguments Ok {A} a.
Arguments Raise {A} e.

Definition bind {A B : Type} (m : result A) (k : A -> result B) : result B :=
  match m with
  | Ok a => k a
  | Raise e => Raise e
  end.

(** A [for] loop whose body may raise: the accumulator is threaded left to
    right and the first exception aborts the loop. *)
Fixpoint for_each {A B : Type} (body : B -> A -> result B) (l : list A) (acc : B)
  : result B :=
  match l with
  | [] => Ok acc
  | x :: l' => bind (body acc x) (for_each body l')
  end.

(** [l[a:b]] for non-negative bounds: clamped to the list, never raising. *)
Definition slice {A : Type} (l : list A) (a b : nat) : list A :=
  firstn (b - a) (skipn a l).

(** [l[i]] for a non-negative index. *)
Definition getitem {A : Type} (l : list A) (i : nat) : result A :=
  match nth_error l i with
  | Some x => Ok x
  | None => Raise IndexError
  end.

(** [a // b] and [a % b] on non-negative integers. *)
Definition floordiv (a b : nat) : result nat :=
  match b with
  | O => Raise ZeroDivisionError
  | S _ => Ok (Nat.div a b)
  end.

Definition modulo (a b : nat) : result nat :=
  match b with
  | O => Raise ZeroDivisionError
  | S _ => Ok (Nat.modulo a b)
  end.

(** [range(start, stop, step)] for non-negative arguments. *)
Definition range (start stop step : nat) : result (list nat) :=
  match step with
  | O => Raise (ValueError "range() arg 3 must not be zero" [])
  | S _ =>
      Ok (map (fun k => (start + k * step)%nat)
              (seq 0 ((stop - start + step - 1) / step)))
  end.

(** [sum(l)]: a left fold from 0. *)
Definition sum (l : list Z) : Z := fold_left Z.add l 0.

(** [l * n]: [n] copies of [l], concatenated. *)
Definition list_mul {A : Type} (l : list A) (n : nat) : list A :=
  List.concat (repeat l n).

(** [enumerate(l)]. *)
Definition enumerate {A : Type} (l : list A) : list (nat * A) :=
  combine (seq 0 (length l)) l.

(** [zip] applied to the unpacked list [ls]: the tuples of the i-th elements,
    as long as every list has one; no tuple at all when [ls] is empty. *)
Fixpoint zip_star {A : Type} (ls : list (list A)) : list (list A) :=
  match ls with
  | [] => []
  | l :: ls' =>
      match ls' with
      | [] => map (fun x => [x]) l
      | _ :: _ => map (fun p => fst p :: snd p) (combine l (zip_star ls'))
      end
  end.

(** Dictionaries with string keys, in insertion order. *)
Definition dict (V : Type) : Type := list (string * V).

(** [d[k] = v]: overwrite in place, or append a new key. *)
Fixpoint setitem {V : Type} (d : dict V) (k : string) (v : V) : dict V :=
  match d with
  | [] => [(k, v)]
  | (k', v') :: d' =>
      if String.eqb k' k then (k', v) :: d' else (k', v') :: setitem d' k v
  end.

(** [d[k]]. *)
Fixpoint lookup {V : Type} (d : dict V) (k : string) : result V :=
  match d with
  | [] => Raise (KeyError k)
  | (k', v') :: d' => if String.eqb k' k then Ok v' else lookup d' k
  end.

(** [d.values()]. *)
Definition values {V : Type} (d : dict V) : list V := map snd d.

End Py.

Import Py.

Notation "x <- m ;; k" := (bind m (fun x => k))
  (at level 61, m at next level, right associativity).

(** ** The class *)

(** The attributes an instance carries. *)
Record TeacherSchedulingProblem : Type := {
  hard_constraint_penalty : Z;
  teachers : list string;
  shift_preference : list (list Z);
  shift_min : list Z;
  shift_max : list Z;
  max_shifts_per_week : Z;
  weeks : nat;
  shift_per_day : nat;
  shifts_per_week : nat
}.

(** The constructor: everything but the penalty is fixed. *)
Definition __init__ (hard_constraint_penalty : Z) : TeacherSchedulingProblem :=
  let shift_min := [2; 2; 1] in
  let shift_per_day := length shift_min in
  {| hard_constraint_penalty := hard_constraint_penalty;
     teachers := ["A"; "B"; "C"; "D"; "E"; "F"; "G"; "H"]%string;
     shift_preference :=
       [[1; 0; 0]; [1; 1; 0]; [0; 0; 1]; [0; 1; 0];
        [0; 0; 1]; [1; 1; 1]; [0; 1; 1]; [1; 1; 1]];
     shift_min := shift_min;
     shift_max := [3; 4; 2];
     max_shifts_per_week := 5;
     weeks := 1;
     shift_per_day := shift_per_day;
     shifts_per_week := 7 * shift_per_day |}.

Section Methods.

Variable self : TeacherSchedulingProblem.

Definition __len__ : nat :=
  (length (teachers self) * shifts_per_week self * weeks self)%nat.

Definition get_teacher_shifts (schedule : list Z) : result (dict (list Z)) :=
  shifts_per_teacher <- floordiv __len__ (length (teachers self)) ;;
  let '(teacher_shifts_dict, _) :=
    fold_left
      (fun '(teacher_shifts_dict, shift_index) teacher =>
         (setitem teacher_shifts_dict teacher
            (slice schedule shift_index (shift_index + shifts_per_teacher)),
          (shift_index + shifts_per_teacher)%nat))
      (teachers self) ([], 0%nat) in
  Ok teacher_shifts_dict.

Definition count_consecutive_shift_violations
    (teacher_shifts_dict : dict (list Z)) : Z :=
  fold_left
    (fun violations teacher_shifts =>
       fold_left
         (fun violations '(shift1, shift2) =>
            if (shift1 =? 1) && (shift2 =? 1) then violations + 1
            else violations)
         (combine teacher_shifts (slice teacher_shifts 1 (length teacher_shifts)))
         violations)
    (values teacher_shifts_dict) 0.

Definition count_shifts_per_week_violations
    (teacher_shifts_dict : dict (list Z)) : result (list Z * Z) :=
  for_each
    (fun '(weekly_shifts_list, violations) teacher_shifts =>
       week_starts <-
         range 0 (weeks self * shifts_per_week self) (shifts_per_week self) ;;
       Ok (fold_left
             (fun '(weekly_shifts_list, violations) i =>
                let weekly_shifts :=
                  sum (slice teacher_shifts i (i + shifts_per_week self)) in
                (weekly_shifts_list ++ [weekly_shifts],
                 if weekly_shifts >? max_shifts_per_week self
                 then violations + (weekly_shifts - max_shifts_per_week self)
                 else violations))
             week_starts (weekly_shifts_list, violations)))
    (values teacher_shifts_dict) ([], 0).

Definition count_teachers_per_shift_violations
    (teacher_shifts_dict : dict (list Z)) : result (list Z * Z) :=
  let total_per_shift_list :=
    map sum (zip_star (values teacher_shifts_dict)) in
  violations <-
    for_each
      (fun violations '(shift_index, num_of_teachers) =>
         daily_shift_index <- modulo shift_index (shift_per_day self) ;;
         hi <- getitem (shift_max self) daily_shift_index ;;
         if num_of_teachers >? hi then Ok (violations + (num_of_teachers - hi))
         else
           lo <- getitem (shift_min self) daily_shift_index ;;
           if num_of_teachers <? lo then Ok (violations + (lo - num_of_teachers))
           else Ok violations)
      (enumerate total_per_shift_list) 0 ;;
  Ok (total_per_shift_list, violations).

Definition count_shift_preference_violations
    (teacher_shifts_dict : dict (list Z)) : result Z :=
  for_each
    (fun violations '(teacher_index, shift_preference) =>
       days <- floordiv (shifts_per_week self) (shift_per_day self) ;;
       let preference := list_mul shift_preference days in
       teacher <- getitem (teachers self) teacher_index ;;
       shifts <- lookup teacher_shifts_dict teacher ;;
       Ok (fold_left
             (fun violations '(pref, shift) =>
                if (pref =? 0) && (shift =? 1) then violations + 1
                else violations)
             (combine preference shifts) violations))
    (enumerate (shift_preference self)) 0.

Definition get_cost (schedule : list Z) : result Z :=
  if negb (length schedule =? __len__)%nat
  then Raise (ValueError "size of schedule list should be equal to "
                [Z.of_nat __len__])
  else
    teacher_shifts_dict <- get_teacher_shifts schedule ;;
    let consecutive_shift_violations :=
      count_consecutive_shift_violations teacher_shifts_dict in
    r1 <- count_shifts_per_week_violations teacher_shifts_dict ;;
    let shifts_per_week_violations := snd r1 in
    r2 <- count_teachers_per_shift_violations teacher_shifts_dict ;;
    let teachers_per_shift_violations := snd r2 in
    shift_preference_violations <-
      count_shift_preference_violations teacher_shifts_dict ;;
    let hard_contstraint_violations :=
      consecutive_shift_violations + teachers_per_shift_violations
      + shifts_per_week_violations in
    let soft_contstraint_violations := shift_preference_violations in
    Ok (hard_constraint_penalty self * hard_contstraint_violations
        + soft_contstraint_violations).

End Methods.

(** ** Reference notions

    What the specification says each count is, written independently of the
    loops above; the theorems below compare the two. *)

(** Number of index pairs [(j, j+1)] of [l] holding 1 at both positions. *)
Definition adjacent_ones (l : list Z) : Z :=
  Z.of_nat
    (length
       (filter (fun j => (nth j l 0 =? 1) && (nth (S j) l 0 =? 1))
          (seq 0 (length l - 1)))).

(** The test of the inner loop on a pair of neighbours. *)
Definition both_worked (p : Z * Z) : bool := (fst p =? 1) && (snd p =? 1).

(** Number of 1's in [l]. *)
Definition ones (l : list Z) : Z := Z.of_nat (count_occ Z.eq_dec l 1).

(** A sequence of worked-flags. *)
Definition binary (l : list Z) : Prop := Forall (fun x => x = 0 \/ x = 1) l.

Section Reference.

Variable self : TeacherSchedulingProblem.

(** W, D and S of the specification; the period has seven days a week. *)
Definition workers : nat := length (teachers self).
Definition days : nat := (7 * weeks self)%nat.
Definition slots : nat := shift_per_day self.

(** The flat sub-sequence of worker [k]: positions [k*D*S, (k+1)*D*S). *)
Definition worker_shifts (schedule : list Z) (k : nat) : list Z :=
  slice schedule (k * (days * slots)) ((k + 1) * (days * slots)).

(** The per-worker sub-sequences, in worker order. *)
Definition rows (schedule : list Z) : list (list Z) :=
  map (worker_shifts schedule) (seq 0 workers).

(** The [n]-th window of a worker's sequence, of length [len]. *)
Definition window (len : nat) (ts : list Z) (n : nat) : list Z :=
  slice ts (n * len) ((n + 1) * len).

(** One window per week. *)
Definition windows (len : nat) (ts : list Z) : list (list Z) :=
  map (window len ts) (seq 0 (weeks self)).

(** Penalty of one window holding [n] shifts. *)
Definition overload (n : Z) : Z :=
  if n >? max_shifts_per_week self then n - max_shifts_per_week self else 0.

(** Headcount at flat position [j] of the period. *)
Definition headcount (schedule : list Z) (j : nat) : Z :=
  sum (map (fun k => nth j (worker_shifts schedule k) 0) (seq 0 workers)).

(** Penalty of a headcount [c] in a slot of type [t]. *)
Definition capacity_penalty (t : nat) (c : Z) : Z :=
  (if c >? nth t (shift_max self) 0 then c - nth t (shift_max self) 0 else 0)
  + (if c <? nth t (shift_min self) 0 then nth t (shift_min self) 0 - c else 0).

(** The same penalty as the [if]/[elif] of the loop computes it: the second test
    is reached only when the first fails. *)
Definition capacity_branch (t : nat) (c : Z) : Z :=
  if c >? nth t (shift_max self) 0 then c - nth t (shift_max self) 0
  else if c <? nth t (shift_min self) 0 then nth t (shift_min self) 0 - c
  else 0.

(** The preference of worker [k], tiled over the days, at position [j]. *)
Definition tiled_preference (k j : nat) : Z :=
  nth (j mod slots) (nth k (shift_preference self) []) 1.

(** Worker [k] is scheduled at a position [j] the worker does not want. *)
Definition unwanted (schedule : list Z) (k j : nat) : bool :=
  (tiled_preference k j =? 0) && (nth j (worker_shifts schedule k) 0 =? 1).

(** How many positions of a worker's sequence the preference loop compares:
    the tiled pattern spans one week. *)
Definition compared : nat := Nat.min (shifts_per_week self) (days * slots).

(** The four counts of a schedule, over its decoded rows. *)
Definition consecutive_total (schedule : list Z) : Z :=
  sum (map adjacent_ones (rows schedule)).

Definition overload_total (schedule : list Z) : Z :=
  sum (map (fun ts =>
              sum (map (fun w => overload (sum w))
                     (windows (shifts_per_week self) ts)))
         (rows schedule)).

Definition capacity_total (schedule : list Z) : Z :=
  sum (map (fun j => capacity_branch (j mod slots) (headcount schedule j))
         (seq 0 (days * slots))).

Definition preference_total (schedule : list Z) : Z :=
  sum (map (fun k =>
              Z.of_nat (length (filter (unwanted schedule k) (seq 0 compared))))
         (seq 0 workers)).

(** The shape [__init__] gives every instance. *)
Record well_formed : Prop := {
  wf_teachers : teachers self <> [];
  wf_distinct : NoDup (teachers self);
  wf_slots : shift_min self <> [];
  wf_shift_per_day : shift_per_day self = length (shift_min self);
  wf_shifts_per_week : shifts_per_week self = (7 * shift_per_day self)%nat;
  wf_shift_max : length (shift_max self) = length (shift_min self);
  wf_preference : length (shift_preference self) = length (teachers self);
  wf_preference_rows :
    Forall (fun p => length p = shift_per_day self) (shift_preference self)
}.

(** Capacity bounds that can be met: [0 <= min <= max] for every slot type. *)
Definition capacity_consistent : Prop :=
  Forall (fun lo => 0 <= lo) (shift_min self)
  /\ Forall2 Z.le (shift_min self) (shift_max self).

End Reference.

(** Sample schedules for the instance of the constructor: the first teacher
    works the first six shifts of the week; and a schedule with entries that
    are not worked-flags. *)
Definition six_in_a_row : list Z := repeat 1 6 ++ repeat 0 162.

Definition off_range : list Z := [2] ++ repeat 0 21 ++ [-1] ++ repeat 0 145.

(** ** Printing and the entry points

    [print_schedule_info] and [main] of [teachers.py], and the fitness function
    of [solution.py].  A call of [print] is recorded with its arguments; the
    output of a run is the sequence of the calls made before it returned or
    raised. *)

(** An argument of [print]. *)
Inductive printed : Type :=
| PStr (s : string)
| PInt (n : Z)
| PList (l : list Z).

(** The arguments of one call of [print]. *)
Definition line : Type := list printed.

(** A computation that prints: from the lines printed so far to the lines
    printed when it stops, and how it stops. *)
Definition io (A : Type) : Type := list line -> list line * result A.

Definition io_bind {A B : Type} (m : io A) (k : A -> io B) : io B :=
  fun out =>
    match m out with
    | (out', Ok a) => k a out'
    | (out', Raise e) => (out', Raise e)
    end.

Definition io_ret {A : Type} (a : A) : io A := fun out => (out, Ok a).

(** A call that does not print. *)
Definition call {A : Type} (r : result A) : io A := fun out => (out, r).

(** [print(args)]. *)
Definition print (args : line) : io unit := fun out => (out ++ [args], Ok tt).

Notation "x <~ m ;; k" := (io_bind m (fun x => k))
  (at level 61, m at next level, right associativity).

(** A [for] loop whose body prints. *)
Fixpoint io_for_each {A : Type} (body : A -> io unit) (l : list A) : io unit :=
  match l with
  | [] => io_ret tt
  | x :: l' => _ <~ body x ;; io_for_each body l'
  end.

(** Iterating over a dictionary yields its keys. *)
Definition keys {V : Type} (d : dict V) : list string := map fst d.

Section Reporting.

Variable self : TeacherSchedulingProblem.

Definition print_schedule_info (schedule : list Z) : io unit :=
  teacher_shifts_dict <~ call (get_teacher_shifts self schedule) ;;
  _ <~ print [PStr "Schedule for each teacher:"] ;;
  _ <~ io_for_each
         (fun teacher =>
            shifts <~ call (lookup teacher_shifts_dict teacher) ;;
            print [PStr teacher; PStr ":"; PList shifts])
         (keys teacher_shifts_dict) ;;
  _ <~ print [PStr "consecutive shift violations = ";
              PInt (count_consecutive_shift_violations teacher_shifts_dict)] ;;
  _ <~ print [] ;;
  r1 <~ call (count_shifts_per_week_violations self teacher_shifts_dict) ;;
  _ <~ print [PStr "Weekly Shifts = "; PList (fst r1)] ;;
  _ <~ print [PStr "Shifts Per Week Violations = "; PInt (snd r1)] ;;
  _ <~ print [] ;;
  r2 <~ call (count_teachers_per_shift_violations self teacher_shifts_dict) ;;
  _ <~ print [PStr "Teachers Per Shift = "; PList (fst r2)] ;;
  _ <~ print [PStr "Teachers Per Shift Violations = "; PInt (snd r2)] ;;
  _ <~ print [] ;;
  shift_preference_violations <~
    call (count_shift_preference_violations self teacher_shifts_dict) ;;
  _ <~ print [PStr "Shift Preference Violations = ";
              PInt shift_preference_violations] ;;
  print [].

End Reporting.

(** [np.random.randint(2, size=size)]: [size] draws, each 0 or 1.  The source
    of randomness is the argument [random], the i-th draw being 1 when
    [random i] holds. *)
Definition randint2 (random : nat -> bool) (size : nat) : list Z :=
  map (fun i => if random i then 1 else 0) (seq 0 size).

(** [main] of [teachers.py], given the source of randomness.  The drawn array
    holds 0's and 1's only, so its sums stay far inside the range of the array's
    machine integers and are the sums of the entries. *)
Definition main (random : nat -> bool) : io unit :=
  let teachers := __init__ 10 in
  let random_solution := randint2 random (__len__ teachers) in
  _ <~ print [PStr "Random Solution = "] ;;
  _ <~ print [PList random_solution] ;;
  _ <~ print [] ;;
  _ <~ print_schedule_info teachers random_solution ;;
  cost <~ call (get_cost teachers random_solution) ;;
  print [PStr "Total Cost = "; PInt cost].

(** [solution.py]: the problem instance and the fitness function registered as
    [evaluate]; the fitness is a tuple of one value. *)
Module Solution.

Definition HARD_CONSTRAINT_PENALTY : Z := 10.

Definition nsp : TeacherSchedulingProblem := __init__ HARD_CONSTRAINT_PENALTY.

Definition get_cost (individual : list Z) : result (list Z) :=
  cost <- get_cost nsp individual ;;
  Ok [cost].

End Solution.

(** The line [print_schedule_info] prints for one entry of the dictionary. *)
Definition entry_line (entry : string * list Z) : line :=
  [PStr (fst entry); PStr ":"; PList (snd entry)].

(** The ten lines that follow the teachers' lines, from the four counts. *)
Definition count_lines
    (consecutive : Z) (weekly : list Z * Z) (capacity : list Z * Z)
    (preference : Z) : list line :=
  [ [PStr "consecutive shift violations = "; PInt consecutive];
    [];
    [PStr "Weekly Shifts = "; PList (fst weekly)];
    [PStr "Shifts Per Week Violations = "; PInt (snd weekly)];
    [];
    [PStr "Teachers Per Shift = "; PList (fst capacity)];
    [PStr "Teachers Per Shift Violations = "; PInt (snd capacity)];
    [];
    [PStr "Shift Preference Violations = "; PInt preference];
    [] ].

(** ** Schedules as objects

    [get_cost] is handed an object: [solution.py] passes individuals of the
    class [Individual], lists that also carry a fitness.  An object has an
    identity, its entries, and the fitness cached on it once it has been
    evaluated.  The methods reach their argument through [len] and through
    slices, which are new lists of entries. *)
Record Individual : Type := {
  ident : nat;
  items : list Z;
  fitness : option (list Z)
}.


Definition slice_of (schedule : Individual) (a b : nat) : list Z :=
  slice (items schedule) a b.

Section MethodsOnObjects.

Variable self : TeacherSchedulingProblem.

Definition get_teacher_shifts_of (schedule : Individual)
  : result (dict (list Z)) :=
  shifts_per_teacher <- floordiv (__len__ self) (length (teachers self)) ;;
  let '(teacher_shifts_dict, _) :=
    fold_left
      (fun '(teacher_shifts_dict, shift_index) teacher =>
         (setitem teacher_shifts_dict teacher
            (slice_of schedule shift_index (shift_index + shifts_per_teacher)),
          (shift_index + shifts_per_teacher)%nat))
      (teachers self) ([], 0%nat) in
  Ok teacher_shifts_dict.


End MethodsOnObjects.



(** An entry read as a worked-flag: 1 stays 1, anything else becomes 0. *)
Definition worked_flag (x : Z) : Z := if x =? 1 then 1 else 0.

(** The dictionary with every entry of every sequence read as a worked-flag. *)
Definition flagged (d : dict (list Z)) : dict (list Z) :=
  map (fun entry => (fst entry, map worked_flag (snd entry))) d.

(** A teacher's sequence without two 1's in a row. *)
Definition no_adjacent_ones (l : list Z) : Prop :=
  forall j, (S j < length l)%nat -> ~ (nth j l 0 = 1 /\ nth (S j) l 0 = 1).

(** ** Loops as closed forms *)

Arguments sum : simpl never.
Arguments slice : simpl never.

Section Loops.

Lemma sum_from (l : list Z) (a : Z) : fold_left Z.add l a = a + sum l.
Proof.
  unfold sum. revert a.
  assert (H : forall l a b, fold_left Z.add l (a + b) = a + fold_left Z.add l b).
  { clear. induction l as [|x l IH]; intros a b; simpl; [reflexivity|].
    rewrite <- Z.add_assoc. apply IH. }
  intros a. rewrite <- (H l a 0). f_equal. lia.
Qed.

Lemma sum_nil : sum [] = 0.
Proof. reflexivity. Qed.

Lemma sum_cons (x : Z) (l : list Z) : sum (x :: l) = x + sum l.
Proof. unfold sum at 1. simpl. apply sum_from. Qed.

Lemma sum_app (l1 l2 : list Z) : sum (l1 ++ l2) = sum l1 + sum l2.
Proof.
  induction l1 as [|x l1 IH]; cbn [app].
  - rewrite sum_nil. lia.
  - rewrite !sum_cons, IH. lia.
Qed.

Lemma sum_nonneg (l : list Z) : Forall (fun x => 0 <= x) l -> 0 <= sum l.
Proof.
  induction 1 as [|x l Hx _ IH]; [rewrite sum_nil; lia|].
  rewrite sum_cons. lia.
Qed.

(** A loop adding a term per element. *)
Lemma loop_add {A : Type} (f : A -> Z) (l : list A) (a : Z) :
  fold_left (fun v x => v + f x) l a = a + sum (map f l).
Proof.
  revert a. induction l as [|x l IH]; intros a; simpl.
  - rewrite sum_nil. lia.
  - rewrite IH, sum_cons. lia.
Qed.

(** A loop counting the elements that pass a test. *)
Lemma loop_count {A : Type} (c : A -> bool) (l : list A) (a : Z) :
  fold_left (fun v x => if c x then v + 1 else v) l a
  = a + Z.of_nat (length (filter c l)).
Proof.
  revert a. induction l as [|x l IH]; intros a; simpl; [lia|].
  rewrite IH. destruct (c x); simpl length; lia.
Qed.

Lemma fold_left_ext {A B : Type} (f g : B -> A -> B) (l : list A) (b : B) :
  (forall b x, f b x = g b x) -> fold_left f l b = fold_left g l b.
Proof.
  intros E. revert b. induction l as [|x l IH]; intros b; simpl; [reflexivity|].
  rewrite E. apply IH.
Qed.

(** A loop whose body cannot raise. *)
Lemma for_each_pure {A B : Type} (f : B -> A -> B) (l : list A) (b : B) :
  for_each (fun b x => Ok (f b x)) l b = Ok (fold_left f l b).
Proof.
  revert b. induction l as [|x l IH]; intros b; simpl; [reflexivity|apply IH].
Qed.

Lemma for_each_ext {A B : Type} (f g : B -> A -> result B) (l : list A) (b : B) :
  (forall b x, In x l -> f b x = g b x) -> for_each f l b = for_each g l b.
Proof.
  revert b. induction l as [|x l IH]; intros b E; simpl; [reflexivity|].
  rewrite E by (left; reflexivity).
  destruct (g b x); simpl; [apply IH; intros; apply E; right; assumption|reflexivity].
Qed.

Lemma filter_map_length {A B : Type} (c : B -> bool) (g : A -> B) (l : list A) :
  length (filter c (map g l)) = length (filter (fun x => c (g x)) l).
Proof.
  induction l as [|x l IH]; simpl; [reflexivity|].
  destruct (c (g x)); simpl; rewrite IH; reflexivity.
Qed.

Lemma filter_ext_length {A : Type} (c c' : A -> bool) (l : list A) :
  (forall x, In x l -> c x = c' x) ->
  length (filter c l) = length (filter c' l).
Proof.
  intros E. induction l as [|x l IH]; simpl; [reflexivity|].
  rewrite (E x) by (left; reflexivity).
  destruct (c' x); simpl; rewrite IH; auto; intros; apply E; right; assumption.
Qed.

End Loops.

(** ** Slices *)

Section Slices.

Context {A : Type}.

Lemma slice_length (l : list A) (a n : nat) :
  (a + n <= length l)%nat -> length (slice l a (a + n)) = n.
Proof.
  intros H. unfold slice. rewrite length_firstn, length_skipn. lia.
Qed.

Lemma slice_tail (l : list A) : slice l 1 (length l) = tl l.
Proof.
  unfold slice. destruct l as [|x l]; simpl; [reflexivity|].
  rewrite Nat.sub_0_r. apply firstn_all.
Qed.

Lemma slice_nth (l : list A) (a n j : nat) (d : A) :
  (j < n)%nat -> nth j (slice l a (a + n)) d = nth (a + j) l d.
Proof.
  intros H. unfold slice.
  replace (a + n - a)%nat with n by lia.
  rewrite nth_firstn.
  destruct (Nat.ltb_spec j n) as [_|Hge]; [|lia].
  apply nth_skipn.
Qed.

(** Consecutive slices of equal length tile the list. *)
Lemma slices_concat (n : nat) (l : list A) (k : nat) :
  length l = (k * n)%nat ->
  concat (map (fun i => slice l (i * n) ((i + 1) * n)) (seq 0 k)) = l.
Proof.
  revert l. induction k as [|k IH]; intros l H.
  - simpl in *. destruct l; [reflexivity|discriminate].
  - rewrite seq_S, map_app, concat_app. simpl.
    rewrite app_nil_r.
    transitivity (firstn (k * n) l ++ skipn (k * n) l);
      [|apply firstn_skipn].
    f_equal.
    + rewrite <- (IH (firstn (k * n) l))
        by (rewrite length_firstn; lia).
      f_equal. apply map_ext_in. intros i Hi. apply in_seq in Hi.
      unfold slice. rewrite skipn_firstn_comm, firstn_firstn.
      f_equal. assert ((i + 1) * n <= k * n)%nat by nia. lia.
    + unfold slice. apply firstn_all2. rewrite length_skipn. lia.
Qed.

End Slices.

(** ** Consecutive shifts *)

Section Consecutive.

Lemma neighbours_by_index (l : list Z) :
  combine l (tl l)
  = map (fun j => (nth j l 0, nth (S j) l 0)) (seq 0 (length l - 1)).
Proof.
  induction l as [|a l IH]; [reflexivity|].
  destruct l as [|b l]; [reflexivity|].
  change (combine (a :: b :: l) (tl (a :: b :: l)))
    with ((a, b) :: combine (b :: l) (tl (b :: l))).
  rewrite IH.
  change (length (a :: b :: l) - 1)%nat with (S (length l)).
  change (length (b :: l) - 1)%nat with (length l - 0)%nat.
  rewrite Nat.sub_0_r.
  rewrite <- cons_seq, <- seq_shift. simpl map. rewrite map_map. reflexivity.
Qed.

Lemma adjacent_ones_neighbours (l : list Z) :
  adjacent_ones l = Z.of_nat (length (filter both_worked (combine l (tl l)))).
Proof.
  unfold adjacent_ones. rewrite neighbours_by_index, filter_map_length.
  reflexivity.
Qed.

(** The inner loop adds the number of adjacent pairs of 1's. *)
Lemma inner_loop_adjacent (ts : list Z) (violations : Z) :
  fold_left
    (fun violations '(shift1, shift2) =>
       if (shift1 =? 1) && (shift2 =? 1) then violations + 1 else violations)
    (combine ts (slice ts 1 (length ts))) violations
  = violations + adjacent_ones ts.
Proof.
  rewrite slice_tail, adjacent_ones_neighbours, <- loop_count.
  apply fold_left_ext. intros b [x y]. reflexivity.
Qed.

Lemma count_consecutive_sum (d : dict (list Z)) :
  count_consecutive_shift_violations d = sum (map adjacent_ones (values d)).
Proof.
  unfold count_consecutive_shift_violations.
  rewrite (fold_left_ext _ (fun v ts => v + adjacent_ones ts))
    by (intros; apply inner_loop_adjacent).
  rewrite loop_add. lia.
Qed.

Lemma count_consecutive_single (t : string) (ts : list Z) :
  count_consecutive_shift_violations [(t, ts)] = adjacent_ones ts.
Proof.
  rewrite count_consecutive_sum. simpl. rewrite sum_cons, sum_nil. lia.
Qed.

(** Joining two sequences adds at most the pair across the joint. *)
Lemma adjacent_ones_app (l1 l2 : list Z) :
  adjacent_ones (l1 ++ l2)
  = adjacent_ones l1 + adjacent_ones l2
    + (if (last l1 0 =? 1) && (hd 0 l2 =? 1) then 1 else 0).
Proof.
  rewrite !adjacent_ones_neighbours.
  induction l1 as [|a l1 IH].
  - simpl. lia.
  - destruct l1 as [|b l1].
    + clear IH. destruct l2 as [|c l2]; simpl; [rewrite andb_false_r; reflexivity|].
      change (both_worked (a, c)) with ((a =? 1) && (c =? 1)).
      destruct ((a =? 1) && (c =? 1)); simpl length; lia.
    + change (combine ((a :: b :: l1) ++ l2) (tl ((a :: b :: l1) ++ l2)))
        with ((a, b) :: combine ((b :: l1) ++ l2) (tl ((b :: l1) ++ l2))).
      change (combine (a :: b :: l1) (tl (a :: b :: l1)))
        with ((a, b) :: combine (b :: l1) (tl (b :: l1))).
      change (last (a :: b :: l1) 0) with (last (b :: l1) 0).
      cbn [filter]. destruct (both_worked (a, b)); cbn [length]; lia.
Qed.

(** A run of [n] ones holds [n - 1] adjacent pairs. *)
Lemma adjacent_ones_run (n : nat) :
  adjacent_ones (repeat 1 n) = Z.of_nat (n - 1).
Proof.
  induction n as [|n IH]; [reflexivity|].
  change (repeat 1 (S n)) with ([1] ++ repeat 1 n).
  rewrite adjacent_ones_app, IH.
  destruct n as [|n]; [reflexivity|].
  simpl hd. simpl last. change (adjacent_ones [1]) with 0.
  simpl andb. lia.
Qed.

Lemma last_repeat_one (n : nat) : (0 < n)%nat -> last (repeat 1 n) 0 = 1.
Proof.
  induction n as [|n IH]; [lia|]. intros _.
  destruct n as [|n]; [reflexivity|].
  change (last (repeat 1 (S (S n))) 0) with (last (repeat 1 (S n)) 0).
  apply IH. lia.
Qed.

(** A maximal run of [n] ones contributes [n - 1], whatever surrounds it. *)
Lemma adjacent_ones_isolated_run (pre post : list Z) (n : nat) :
  (0 < n)%nat -> last pre 0 <> 1 -> hd 0 post <> 1 ->
  adjacent_ones (pre ++ repeat 1 n ++ post)
  = adjacent_ones pre + adjacent_ones post + Z.of_nat (n - 1).
Proof.
  intros Hn Hpre Hpost.
  rewrite !adjacent_ones_app, adjacent_ones_run.
  apply Z.eqb_neq in Hpre, Hpost. rewrite Hpre, Hpost.
  rewrite andb_false_r. simpl andb. lia.
Qed.

End Consecutive.

(** ** Decoding a schedule *)

Section Decoding.

Variable self : TeacherSchedulingProblem.
Hypothesis wf : well_formed self.

Lemma setitem_fresh {V : Type} (d : dict V) (k : string) (v : V) :
  ~ In k (map fst d) -> setitem d k v = d ++ [(k, v)].
Proof.
  induction d as [|[k' v'] d IH]; intros H; simpl; [reflexivity|].
  simpl in H. destruct (String.eqb_spec k' k) as [E|_].
  - exfalso. apply H. left. assumption.
  - rewrite IH; [reflexivity|]. intros Hin. apply H. right. assumption.
Qed.

(** The slicing loop, started at any point with keys not seen yet. *)
Lemma slicing_loop (schedule : list Z) (n : nat) (ts : list string) :
  forall (d : dict (list Z)) (i : nat),
    NoDup ts -> (forall t, In t ts -> ~ In t (map fst d)) ->
    fold_left
      (fun '(d, i) t => (setitem d t (slice schedule i (i + n)), (i + n)%nat))
      ts (d, i)
    = (d ++ combine ts
              (map (fun k => slice schedule (i + k * n) (i + k * n + n))
                 (seq 0 (length ts))),
       (i + length ts * n)%nat).
Proof.
  induction ts as [|t ts IH]; intros d i Hnd Hfresh.
  - simpl. rewrite app_nil_r. f_equal. lia.
  - inversion Hnd as [|? ? Hnotin Hnd']; subst.
    cbn [fold_left]. rewrite setitem_fresh by (apply Hfresh; left; reflexivity).
    rewrite IH; [|assumption|].
    + rewrite <- app_assoc. cbn [length]. rewrite <- cons_seq, <- seq_shift.
      cbn [map combine app]. rewrite map_map. f_equal; [|lia].
      f_equal. f_equal; [do 2 f_equal; lia|].
      f_equal. apply map_ext. intros k. f_equal; lia.
    + intros t' Hin. rewrite map_app, in_app_iff. cbn [map fst In].
      intros [H|[H|[]]].
      * apply (Hfresh t'); [right; assumption|assumption].
      * subst t'. contradiction.
Qed.

Lemma shifts_per_teacher_value :
  floordiv (__len__ self) (length (teachers self)) = Ok (days self * slots self)%nat.
Proof.
  destruct wf as [Ht _ _ _ Hspw _ _ _].
  unfold floordiv, __len__, days, slots. rewrite Hspw.
  assert (Hw : length (teachers self) <> 0%nat)
    by (destruct (teachers self); [contradiction|discriminate]).
  destruct (length (teachers self)) as [|w]; [contradiction|].
  f_equal.
  replace (S w * (7 * shift_per_day self) * weeks self)%nat
    with ((7 * weeks self * shift_per_day self) * S w)%nat by lia.
  apply Nat.div_mul. discriminate.
Qed.

(** [get_teacher_shifts] pairs every teacher with the teacher's sub-sequence. *)
Lemma get_teacher_shifts_rows (schedule : list Z) :
  get_teacher_shifts self schedule
  = Ok (combine (teachers self) (rows self schedule)).
Proof.
  unfold get_teacher_shifts. rewrite shifts_per_teacher_value. cbn [bind].
  rewrite slicing_loop; [|apply wf|intros t _ []].
  cbn [app]. f_equal. f_equal. unfold rows, workers, worker_shifts.
  apply map_ext. intros k. f_equal; lia.
Qed.

Lemma rows_length (schedule : list Z) :
  length (rows self schedule) = workers self.
Proof. unfold rows. rewrite length_map, length_seq. reflexivity. Qed.

Lemma values_decoded (schedule : list Z) :
  values (combine (teachers self) (rows self schedule)) = rows self schedule.
Proof.
  unfold values.
  assert (H : forall (A B : Type) (l1 : list A) (l2 : list B),
             length l1 = length l2 -> map snd (combine l1 l2) = l2).
  { clear. induction l1 as [|a l1 IH]; intros [|b l2] H; try discriminate;
      [reflexivity|]. simpl. f_equal. apply IH. simpl in H. lia. }
  apply H. rewrite rows_length. reflexivity.
Qed.

Lemma len_value :
  __len__ self = (workers self * (days self * slots self))%nat.
Proof.
  unfold __len__, workers, days, slots. rewrite (wf_shifts_per_week self wf). lia.
Qed.

Lemma worker_shifts_length (schedule : list Z) (k : nat) :
  length schedule = __len__ self -> (k < workers self)%nat ->
  length (worker_shifts self schedule k) = (days self * slots self)%nat.
Proof.
  intros Hlen Hk. unfold worker_shifts.
  replace ((k + 1) * (days self * slots self))%nat
    with (k * (days self * slots self) + days self * slots self)%nat by lia.
  apply slice_length. rewrite Hlen, len_value. nia.
Qed.

Lemma rows_concat (schedule : list Z) :
  length schedule = __len__ self -> concat (rows self schedule) = schedule.
Proof.
  intros Hlen. unfold rows, worker_shifts.
  apply slices_concat. rewrite Hlen. apply len_value.
Qed.

Lemma lookup_decoded (schedule : list Z) (k : nat) (t : string) :
  nth_error (teachers self) k = Some t ->
  lookup (combine (teachers self) (rows self schedule)) t
  = Ok (worker_shifts self schedule k).
Proof.
  unfold rows, workers.
  pose proof (wf_distinct self wf) as Hnd. revert Hnd.
  generalize (worker_shifts self schedule) as f.
  generalize (teachers self) as ts. intros ts. revert k.
  induction ts as [|t' ts IH]; intros k f Hnd Hk.
  - destruct k; discriminate.
  - inversion Hnd as [|? ? Hnotin Hnd']; subst.
    cbn [length]. rewrite <- cons_seq, <- seq_shift.
    cbn [map combine lookup]. rewrite map_map.
    destruct k as [|k]; simpl in Hk.
    + injection Hk as ->. rewrite String.eqb_refl. reflexivity.
    + destruct (String.eqb_spec t' t) as [E|_].
      * subst t'. exfalso. apply Hnotin. eapply nth_error_In. eassumption.
      * apply (IH k (fun j => f (S j))); assumption.
Qed.

End Decoding.

(** ** Shifts per week *)

Section Weekly.

Variable self : TeacherSchedulingProblem.

(** A loop that extends a list and adds to a counter at every step. *)
Lemma loop_extend {A : Type} (F : A -> list Z) (G : A -> Z) (l : list A) :
  forall (acc : list Z) (v : Z),
    fold_left (fun '(acc, v) x => (acc ++ F x, v + G x)) l (acc, v)
    = (acc ++ concat (map F l), v + sum (map G l)).
Proof.
  induction l as [|x l IH]; intros acc v; cbn [fold_left map concat].
  - rewrite app_nil_r, sum_nil. f_equal. lia.
  - rewrite IH, <- app_assoc, sum_cons. f_equal. lia.
Qed.

Lemma concat_singletons {A B : Type} (f : A -> B) (l : list A) :
  concat (map (fun x => [f x]) l) = map f l.
Proof. induction l as [|x l IH]; simpl; [|rewrite IH]; reflexivity. Qed.

(** The starts of the weeks: one per week, [shifts_per_week] apart. *)
Lemma week_starts_value :
  shifts_per_week self <> 0%nat ->
  range 0 (weeks self * shifts_per_week self) (shifts_per_week self)
  = Ok (map (fun n => (n * shifts_per_week self)%nat) (seq 0 (weeks self))).
Proof.
  intros Hp. unfold range.
  destruct (shifts_per_week self) as [|p] eqn:E; [contradiction|].
  f_equal.
  replace ((weeks self * S p - 0 + S p - 1) / S p)%nat with (weeks self).
  - apply map_ext. intros n. lia.
  - replace (weeks self * S p - 0 + S p - 1)%nat
      with (weeks self * S p + p)%nat by lia.
    rewrite Nat.div_add_l by discriminate.
    rewrite Nat.div_small by lia. lia.
Qed.

(** The loop over the weeks of one teacher. *)
Lemma weeks_loop (ts : list Z) (acc : list Z) (v : Z) :
  fold_left
    (fun '(weekly_shifts_list, violations) i =>
       let weekly_shifts := sum (slice ts i (i + shifts_per_week self)) in
       (weekly_shifts_list ++ [weekly_shifts],
        if weekly_shifts >? max_shifts_per_week self
        then violations + (weekly_shifts - max_shifts_per_week self)
        else violations))
    (map (fun n => (n * shifts_per_week self)%nat) (seq 0 (weeks self)))
    (acc, v)
  = (acc ++ map sum (windows self (shifts_per_week self) ts),
     v + sum (map (fun w => overload self (sum w))
                (windows self (shifts_per_week self) ts))).
Proof.
  rewrite (fold_left_ext _
    (fun '(acc, v) i =>
       (acc ++ [sum (slice ts i (i + shifts_per_week self))],
        v + overload self (sum (slice ts i (i + shifts_per_week self)))))).
  - rewrite loop_extend, concat_singletons. unfold windows, window.
    rewrite !map_map. f_equal.
    + f_equal. apply map_ext. intros n. do 2 f_equal. lia.
    + do 2 f_equal. apply map_ext. intros n. do 3 f_equal. lia.
  - intros [a b] i. unfold overload. cbv zeta.
    destruct (_ >? _); f_equal; lia.
Qed.

(** The weekly sums and the overload of any dictionary of sequences. *)
Lemma count_shifts_per_week_windows (d : dict (list Z)) :
  shifts_per_week self <> 0%nat ->
  count_shifts_per_week_violations self d
  = Ok (concat (map (fun ts => map sum (windows self (shifts_per_week self) ts))
                  (values d)),
        sum (map (fun ts =>
                    sum (map (fun w => overload self (sum w))
                           (windows self (shifts_per_week self) ts)))
               (values d))).
Proof.
  intros Hp. unfold count_shifts_per_week_violations.
  rewrite (for_each_ext _
    (fun acc ts =>
       Ok ((fun '(wl, v) ts =>
              (wl ++ map sum (windows self (shifts_per_week self) ts),
               v + sum (map (fun w => overload self (sum w))
                          (windows self (shifts_per_week self) ts))))
             acc ts))).
  - rewrite for_each_pure, loop_extend. reflexivity.
  - intros [wl v] ts _. rewrite week_starts_value by assumption.
    cbn [bind]. rewrite weeks_loop. reflexivity.
Qed.

Lemma overload_nonneg (n : Z) : 0 <= overload self n.
Proof. unfold overload. destruct (Z.gtb_spec n (max_shifts_per_week self)); lia. Qed.

Lemma overload_excess (n k : Z) :
  0 < k -> n = max_shifts_per_week self + k -> overload self n = k.
Proof.
  intros Hk ->. unfold overload.
  destruct (Z.gtb_spec (max_shifts_per_week self + k) (max_shifts_per_week self)); lia.
Qed.

Lemma overload_within (n : Z) :
  n <= max_shifts_per_week self -> overload self n = 0.
Proof.
  intros H. unfold overload.
  destruct (Z.gtb_spec n (max_shifts_per_week self)); lia.
Qed.

(** On worked-flags the sum of a window is its number of 1's. *)
Lemma sum_binary_ones (l : list Z) : binary l -> sum l = ones l.
Proof.
  unfold ones. induction 1 as [|x l Hx _ IH]; [reflexivity|].
  rewrite sum_cons, IH. cbn [count_occ].
  destruct (Z.eq_dec x 1) as [-> | Hne]; [lia|].
  destruct Hx as [-> | ->]; [lia|contradiction].
Qed.

Lemma binary_slice (l : list Z) (a b : nat) : binary l -> binary (slice l a b).
Proof.
  intros H. unfold slice, binary in *.
  assert (Hs : Forall (fun x => x = 0 \/ x = 1) (skipn a l)).
  { clear b. revert a. induction H as [|x l Hx Hl IH]; intros [|a]; simpl;
      auto. }
  generalize (b - a)%nat as n. revert Hs. generalize (skipn a l) as m.
  induction 1 as [|x m Hx Hm IH]; intros [|n]; simpl; auto.
Qed.

(** The windows tile a sequence of [weeks] times the window length. *)
Lemma windows_concat (len : nat) (ts : list Z) :
  length ts = (weeks self * len)%nat -> concat (windows self len ts) = ts.
Proof. intros H. unfold windows, window. apply slices_concat. exact H. Qed.

Lemma windows_length (len : nat) (ts : list Z) :
  length ts = (weeks self * len)%nat ->
  Forall (fun w => length w = len) (windows self len ts).
Proof.
  intros H. unfold windows, window. rewrite Forall_forall.
  intros w Hw. apply in_map_iff in Hw. destruct Hw as [n [<- Hn]].
  apply in_seq in Hn.
  replace ((n + 1) * len)%nat with (n * len + len)%nat by lia.
  apply slice_length. nia.
Qed.

End Weekly.

(** ** Teachers per shift *)

Section Columns.

Context {A : Type} (d : A).

Lemma map_by_index {B : Type} (f : A -> B) (l : list A) :
  map f l = map (fun j => f (nth j l d)) (seq 0 (length l)).
Proof.
  induction l as [|x l IH]; [reflexivity|].
  cbn [length]. rewrite <- cons_seq, <- seq_shift. cbn [map]. rewrite map_map.
  f_equal. exact IH.
Qed.

Lemma combine_by_index {B : Type} (l : list A) :
  forall (g : nat -> B),
    combine l (map g (seq 0 (length l)))
    = map (fun j => (nth j l d, g j)) (seq 0 (length l)).
Proof.
  induction l as [|x l IH]; intros g; [reflexivity|].
  cbn [length]. rewrite <- cons_seq, <- seq_shift. cbn [map combine].
  rewrite !map_map. f_equal. apply (IH (fun j => g (S j))).
Qed.

(** Unpacking equally long lists into [zip] gives their columns. *)
Lemma zip_star_columns (n : nat) (ls : list (list A)) :
  ls <> [] -> Forall (fun l => length l = n) ls ->
  zip_star ls = map (fun j => map (fun l => nth j l d) ls) (seq 0 n).
Proof.
  induction ls as [|l ls IH]; intros Hne Hlen; [contradiction|].
  inversion Hlen as [|? ? Hl Hls]; subst.
  destruct ls as [|l' ls].
  - cbn [zip_star]. apply map_by_index.
  - change (zip_star (l :: l' :: ls))
      with (map (fun p => fst p :: snd p) (combine l (zip_star (l' :: ls)))).
    rewrite IH by (assumption || discriminate).
    rewrite combine_by_index, map_map. reflexivity.
Qed.

Lemma getitem_nth (l : list A) (i : nat) :
  (i < length l)%nat -> getitem l i = Ok (nth i l d).
Proof.
  intros H. unfold getitem.
  destruct (nth_error l i) as [x|] eqn:E.
  - f_equal. symmetry. apply nth_error_nth. exact E.
  - apply nth_error_None in E. lia.
Qed.

Lemma enumerate_map {B : Type} (h : nat -> B) (n : nat) :
  enumerate (map h (seq 0 n)) = map (fun j => (j, h j)) (seq 0 n).
Proof.
  unfold enumerate. rewrite length_map, length_seq.
  induction (seq 0 n) as [|j l IH]; simpl; [|rewrite IH]; reflexivity.
Qed.

End Columns.

Section Capacity.

Variable self : TeacherSchedulingProblem.
Hypothesis wf : well_formed self.

Lemma slots_positive : slots self <> 0%nat.
Proof.
  unfold slots. rewrite (wf_shift_per_day self wf).
  pose proof (wf_slots self wf). destruct (shift_min self); [contradiction|discriminate].
Qed.

Lemma workers_positive : workers self <> 0%nat.
Proof.
  unfold workers.
  pose proof (wf_teachers self wf). destruct (teachers self); [contradiction|discriminate].
Qed.

(** The headcounts of a decoded schedule, one per position of the period. *)
Lemma total_per_shift_headcount (schedule : list Z) :
  length schedule = __len__ self ->
  map sum (zip_star (rows self schedule))
  = map (headcount self schedule) (seq 0 (days self * slots self)).
Proof.
  intros Hlen.
  rewrite (zip_star_columns 0 (days self * slots self)).
  - rewrite map_map. apply map_ext. intros j.
    unfold headcount, rows. rewrite map_map. reflexivity.
  - intros E. apply (f_equal (@length _)) in E.
    rewrite rows_length in E. apply workers_positive. exact E.
  - unfold rows. rewrite Forall_forall. intros r Hr.
    apply in_map_iff in Hr. destruct Hr as [k [E Hk]]. subst r.
    apply in_seq in Hk. apply worker_shifts_length; [assumption..|lia].
Qed.

(** One step of the loop over the positions. *)
Lemma capacity_step (violations : Z) (j : nat) (c : Z) :
  (daily_shift_index <- modulo j (shift_per_day self) ;;
   hi <- getitem (shift_max self) daily_shift_index ;;
   if c >? hi then Ok (violations + (c - hi))
   else
     lo <- getitem (shift_min self) daily_shift_index ;;
     if c <? lo then Ok (violations + (lo - c)) else Ok violations)
  = Ok (violations + capacity_branch self (j mod slots self) c).
Proof.
  pose proof slots_positive as Hs. unfold slots in *.
  assert (Hj : (j mod shift_per_day self < shift_per_day self)%nat)
    by (apply Nat.mod_upper_bound; assumption).
  unfold modulo. destruct (shift_per_day self) as [|s] eqn:E; [contradiction|].
  cbn [bind].
  rewrite (getitem_nth 0)
    by (rewrite (wf_shift_max self wf), <- (wf_shift_per_day self wf), E; exact Hj).
  cbn [bind]. unfold capacity_branch.
  destruct (_ >? _); [reflexivity|].
  rewrite (getitem_nth 0)
    by (rewrite <- (wf_shift_per_day self wf), E; exact Hj).
  cbn [bind]. destruct (_ <? _); f_equal; lia.
Qed.

(** The headcounts and the capacity violations of a decoded schedule. *)
Lemma count_teachers_per_shift_headcount (schedule : list Z) :
  length schedule = __len__ self ->
  count_teachers_per_shift_violations self
    (combine (teachers self) (rows self schedule))
  = Ok (map (headcount self schedule) (seq 0 (days self * slots self)),
        sum (map (fun j =>
                    capacity_branch self (j mod slots self)
                      (headcount self schedule j))
               (seq 0 (days self * slots self)))).
Proof.
  intros Hlen. unfold count_teachers_per_shift_violations.
  rewrite values_decoded, total_per_shift_headcount by assumption.
  rewrite enumerate_map.
  rewrite (for_each_ext _
    (fun v p => Ok (v + capacity_branch self (fst p mod slots self) (snd p))))
    by (intros v [j c] _; apply capacity_step).
  rewrite for_each_pure, loop_add, map_map. cbn [bind fst snd].
  rewrite Z.add_0_l. reflexivity.
Qed.

Lemma capacity_branch_nonneg (t : nat) (c : Z) : 0 <= capacity_branch self t c.
Proof.
  unfold capacity_branch.
  destruct (Z.gtb_spec c (nth t (shift_max self) 0)); [lia|].
  destruct (Z.ltb_spec c (nth t (shift_min self) 0)); lia.
Qed.

(** With [min <= max] the branch is the two-sided penalty. *)
Lemma capacity_branch_penalty (t : nat) (c : Z) :
  Forall2 Z.le (shift_min self) (shift_max self) ->
  capacity_branch self t c = capacity_penalty self t c.
Proof.
  intros H. unfold capacity_branch, capacity_penalty.
  assert (Hle : nth t (shift_min self) 0 <= nth t (shift_max self) 0).
  { revert t. induction H as [|lo hi los his Hle _ IH]; intros [|t]; simpl;
      try lia. apply IH. }
  destruct (Z.gtb_spec c (nth t (shift_max self) 0));
    destruct (Z.ltb_spec c (nth t (shift_min self) 0)); lia.
Qed.

End Capacity.

(** ** Shift preferences *)

Section Preference.

Variable self : TeacherSchedulingProblem.
Hypothesis wf : well_formed self.

Lemma list_mul_length {A : Type} (p : list A) (n : nat) :
  length (list_mul p n) = (n * length p)%nat.
Proof.
  unfold list_mul. induction n as [|n IH]; [reflexivity|].
  cbn [repeat concat]. rewrite length_app, IH. lia.
Qed.

(** A repeated pattern read at position [j] is the pattern at [j mod s]. *)
Lemma list_mul_nth {A : Type} (d : A) (p : list A) (n : nat) :
  length p <> 0%nat ->
  forall j, (j < n * length p)%nat ->
    nth j (list_mul p n) d = nth (j mod length p) p d.
Proof.
  intros Hp. unfold list_mul. induction n as [|n IH]; intros j Hj; [lia|].
  cbn [repeat concat].
  destruct (Nat.lt_ge_cases j (length p)) as [Hlt|Hge].
  - rewrite app_nth1 by assumption. rewrite Nat.mod_small by assumption.
    reflexivity.
  - rewrite app_nth2 by assumption. rewrite IH by lia.
    replace j with (j - length p + 1 * length p)%nat at 2 by lia.
    rewrite Nat.Div0.mod_add. reflexivity.
Qed.

Lemma combine_by_positions {A B : Type} (a : A) (b : B) (l1 : list A) :
  forall (l2 : list B),
    combine l1 l2
    = map (fun j => (nth j l1 a, nth j l2 b))
        (seq 0 (Nat.min (length l1) (length l2))).
Proof.
  induction l1 as [|x l1 IH]; intros [|y l2]; try reflexivity.
  cbn [length Nat.min]. rewrite <- cons_seq, <- seq_shift.
  cbn [combine map]. rewrite map_map. f_equal. apply IH.
Qed.

Lemma enumerate_by_index {A : Type} (d : A) (l : list A) :
  enumerate l = map (fun k => (k, nth k l d)) (seq 0 (length l)).
Proof.
  assert (H : l = map (fun j => nth j l d) (seq 0 (length l))).
  { rewrite <- (map_by_index d (fun x => x)). symmetry. apply map_id. }
  rewrite H at 1. apply enumerate_map.
Qed.

Lemma days_per_week :
  floordiv (shifts_per_week self) (shift_per_day self) = Ok 7%nat.
Proof.
  pose proof (slots_positive self wf) as Hs. unfold slots in Hs.
  rewrite (wf_shifts_per_week self wf). unfold floordiv.
  destruct (shift_per_day self) as [|s] eqn:E; [contradiction|].
  f_equal. apply Nat.div_mul. discriminate.
Qed.

(** One step of the loop over the teachers. *)
Lemma preference_step (schedule : list Z) (violations : Z) (k : nat) :
  length schedule = __len__ self -> (k < workers self)%nat ->
  (days <- floordiv (shifts_per_week self) (shift_per_day self) ;;
   let preference := list_mul (nth k (shift_preference self) []) days in
   teacher <- getitem (teachers self) k ;;
   shifts <- lookup (combine (teachers self) (rows self schedule)) teacher ;;
   Ok (fold_left
         (fun violations '(pref, shift) =>
            if (pref =? 0) && (shift =? 1) then violations + 1 else violations)
         (combine preference shifts) violations))
  = Ok (violations
        + Z.of_nat (length (filter (unwanted self schedule k)
                              (seq 0 (compared self))))).
Proof.
  intros Hlen Hk. rewrite days_per_week. cbn [bind]. cbv zeta.
  unfold getitem. unfold workers in Hk.
  destruct (nth_error (teachers self) k) as [t|] eqn:E;
    [|apply nth_error_None in E; lia].
  cbn [bind]. rewrite (lookup_decoded self wf schedule k t E). cbn [bind].
  f_equal.
  rewrite (fold_left_ext _
    (fun v p => if (fst p =? 0) && (snd p =? 1) then v + 1 else v))
    by (intros v [x y]; reflexivity).
  rewrite loop_count. f_equal. f_equal.
  rewrite (combine_by_positions 1 0), filter_map_length.
  assert (Hrow : length (nth k (shift_preference self) []) = shift_per_day self).
  { pose proof (wf_preference_rows self wf) as Hrows.
    rewrite Forall_forall in Hrows. apply Hrows. apply nth_In.
    rewrite (wf_preference self wf). exact Hk. }
  rewrite list_mul_length, Hrow, worker_shifts_length by assumption.
  unfold compared. rewrite (wf_shifts_per_week self wf).
  apply filter_ext_length. intros j Hj. apply in_seq in Hj.
  cbn [fst snd]. unfold unwanted, tiled_preference, slots.
  rewrite list_mul_nth; rewrite Hrow.
  - reflexivity.
  - apply (slots_positive self wf).
  - lia.
Qed.

(** The preference violations of a decoded schedule. *)
Lemma count_shift_preference_unwanted (schedule : list Z) :
  length schedule = __len__ self ->
  count_shift_preference_violations self
    (combine (teachers self) (rows self schedule))
  = Ok (sum (map (fun k =>
                    Z.of_nat (length (filter (unwanted self schedule k)
                                        (seq 0 (compared self)))))
               (seq 0 (workers self)))).
Proof.
  intros Hlen. unfold count_shift_preference_violations.
  rewrite (enumerate_by_index []), (wf_preference self wf).
  fold (workers self).
  rewrite (for_each_ext _
    (fun v p =>
       Ok (v + Z.of_nat (length (filter (unwanted self schedule (fst p))
                                   (seq 0 (compared self))))))).
  - rewrite for_each_pure, loop_add, map_map. cbn [fst]. rewrite Z.add_0_l.
    reflexivity.
  - intros v [k p] Hin. apply in_map_iff in Hin.
    destruct Hin as [k' [E Hk']]. injection E as -> <-. apply in_seq in Hk'.
    apply preference_step; [assumption|cbn [fst]; lia].
Qed.

(** With a single week every position of the period is compared. *)
Lemma compared_single_week (schedule : list Z) :
  weeks self = 1%nat -> compared self = (days self * slots self)%nat.
Proof.
  intros Hw. unfold compared, days, slots.
  rewrite (wf_shifts_per_week self wf), Hw. lia.
Qed.

End Preference.

(** ** The cost *)

Section Cost.

Variable self : TeacherSchedulingProblem.
Hypothesis wf : well_formed self.

Lemma shifts_per_week_positive : shifts_per_week self <> 0%nat.
Proof.
  rewrite (wf_shifts_per_week self wf).
  pose proof (slots_positive self wf) as H. unfold slots in H. lia.
Qed.

Lemma length_test (schedule : list Z) :
  length schedule = __len__ self ->
  negb (length schedule =? __len__ self)%nat = false.
Proof. intros ->. rewrite Nat.eqb_refl. reflexivity. Qed.

(** The cost of a schedule of the right length, from its four counts. *)
Lemma get_cost_totals (schedule : list Z) :
  length schedule = __len__ self ->
  get_cost self schedule
  = Ok (hard_constraint_penalty self
        * (consecutive_total self schedule + capacity_total self schedule
           + overload_total self schedule)
        + preference_total self schedule).
Proof.
  intros Hlen. unfold get_cost.
  rewrite length_test by assumption.
  rewrite (get_teacher_shifts_rows self wf). cbn [bind].
  rewrite count_shifts_per_week_windows by apply shifts_per_week_positive.
  cbn [bind snd].
  rewrite (count_teachers_per_shift_headcount self wf) by assumption.
  cbn [bind snd].
  rewrite (count_shift_preference_unwanted self wf) by assumption.
  cbn [bind]. rewrite count_consecutive_sum, values_decoded.
  reflexivity.
Qed.

Lemma sum_map_nonneg {A : Type} (f : A -> Z) (l : list A) :
  (forall x, 0 <= f x) -> 0 <= sum (map f l).
Proof.
  intros H. apply sum_nonneg. rewrite Forall_forall. intros y Hy.
  apply in_map_iff in Hy. destruct Hy as [x [E _]]. subst y. apply H.
Qed.

Lemma adjacent_ones_nonneg (l : list Z) : 0 <= adjacent_ones l.
Proof. unfold adjacent_ones. lia. Qed.

(** Every count is non-negative, whatever the entries of the schedule. *)
Lemma totals_nonneg (schedule : list Z) :
  0 <= consecutive_total self schedule
  /\ 0 <= capacity_total self schedule
  /\ 0 <= overload_total self schedule
  /\ 0 <= preference_total self schedule.
Proof.
  unfold consecutive_total, capacity_total, overload_total, preference_total.
  repeat split; apply sum_map_nonneg; intros x.
  - apply adjacent_ones_nonneg.
  - apply capacity_branch_nonneg.
  - apply sum_map_nonneg. intros w. apply overload_nonneg.
  - lia.
Qed.

End Cost.

(** ** The schedule with nobody at work *)

Section Idle.

Variable self : TeacherSchedulingProblem.
Hypothesis wf : well_formed self.

Lemma slice_all_zero (l : list Z) (a b : nat) :
  (forall j, nth j l 0 = 0) -> forall j, nth j (slice l a b) 0 = 0.
Proof.
  intros H j. unfold slice. rewrite nth_firstn.
  destruct (j <? b - a)%nat; [|reflexivity].
  rewrite nth_skipn. apply H.
Qed.

Lemma idle_entry (n a b j : nat) : nth j (slice (repeat 0 n) a b) 0 = 0.
Proof. apply slice_all_zero. intros i. apply nth_repeat. Qed.

Lemma sum_all_zero (l : list Z) : (forall j, nth j l 0 = 0) -> sum l = 0.
Proof.
  induction l as [|x l IH]; intros H; [reflexivity|].
  rewrite sum_cons, IH; [|intros j; apply (H (S j))].
  pose proof (H 0%nat) as H0. simpl in H0. lia.
Qed.

Lemma adjacent_ones_idle (l : list Z) :
  (forall j, nth j l 0 = 0) -> adjacent_ones l = 0.
Proof.
  intros H. unfold adjacent_ones.
  rewrite (filter_ext_length _ (fun _ => false))
    by (intros j _; rewrite H; reflexivity).
  induction (seq 0 (length l - 1)) as [|x xs IH]; [reflexivity|exact IH].
Qed.

Lemma sum_zeros {A : Type} (l : list A) : sum (map (fun _ => 0) l) = 0.
Proof.
  induction l as [|x l IH]; [reflexivity|].
  cbn [map]. rewrite sum_cons, IH. reflexivity.
Qed.

Lemma consecutive_total_idle (n : nat) :
  consecutive_total self (repeat 0 n) = 0.
Proof.
  unfold consecutive_total, rows. rewrite map_map.
  rewrite (map_ext _ (fun _ => 0)); [apply sum_zeros|].
  intros k. apply adjacent_ones_idle. intros j. apply idle_entry.
Qed.

Lemma preference_total_idle (n : nat) :
  preference_total self (repeat 0 n) = 0.
Proof.
  unfold preference_total.
  rewrite (map_ext _ (fun _ => 0)); [apply sum_zeros|].
  intros k.
  rewrite (filter_ext_length _ (fun _ => false)).
  - induction (seq 0 (compared self)) as [|x xs IH]; [reflexivity|exact IH].
  - intros j _. unfold unwanted, worker_shifts. rewrite idle_entry.
    apply andb_false_r.
Qed.

Lemma headcount_idle (n j : nat) : headcount self (repeat 0 n) j = 0.
Proof.
  unfold headcount.
  rewrite (map_ext _ (fun _ => 0)); [apply sum_zeros|].
  intros k. apply idle_entry.
Qed.

Lemma overload_total_idle (n : nat) :
  0 <= max_shifts_per_week self -> overload_total self (repeat 0 n) = 0.
Proof.
  intros Hmax. unfold overload_total, rows. rewrite map_map.
  rewrite (map_ext _ (fun _ => 0)); [apply sum_zeros|].
  intros k. unfold windows. rewrite map_map.
  rewrite (map_ext _ (fun _ => 0)); [apply sum_zeros|].
  intros i. apply overload_within.
  rewrite sum_all_zero; [exact Hmax|].
  unfold window, worker_shifts. apply slice_all_zero. intros j. apply idle_entry.
Qed.

(** An empty slot misses its whole minimum. *)
Lemma capacity_branch_idle (t : nat) :
  capacity_consistent self ->
  capacity_branch self t 0 = nth t (shift_min self) 0.
Proof.
  intros [Hmin Hle]. unfold capacity_branch.
  assert (H : 0 <= nth t (shift_min self) 0 <= nth t (shift_max self) 0).
  { revert t Hmin.
    induction Hle as [|lo hi los his Hlh _ IH]; intros [|t] Hmin; simpl;
      try lia; inversion Hmin; subst; [lia|]. apply IH. assumption. }
  destruct (Z.gtb_spec 0 (nth t (shift_max self) 0)); [lia|].
  destruct (Z.ltb_spec 0 (nth t (shift_min self) 0)); lia.
Qed.

Lemma capacity_total_idle (n : nat) :
  capacity_consistent self ->
  capacity_total self (repeat 0 n)
  = sum (map (fun j => nth (j mod slots self) (shift_min self) 0)
           (seq 0 (days self * slots self))).
Proof.
  intros Hc. unfold capacity_total. f_equal. apply map_ext. intros j.
  rewrite headcount_idle. apply capacity_branch_idle. exact Hc.
Qed.

Lemma seq_offset (a n : nat) : seq a n = map (fun t => (t + a)%nat) (seq 0 n).
Proof.
  induction n as [|n IH]; [reflexivity|].
  rewrite !seq_S, map_app, IH. cbn [map]. do 2 f_equal. lia.
Qed.

(** Summing a slot-type quantity over the period: once per day. *)
Lemma sum_over_period (f : nat -> Z) (s : nat) :
  s <> 0%nat ->
  forall dn,
    sum (map (fun j => f (j mod s)%nat) (seq 0 (dn * s)))
    = Z.of_nat dn * sum (map f (seq 0 s)).
Proof.
  intros Hs. induction dn as [|dn IH]; [reflexivity|].
  replace (S dn * s)%nat with (dn * s + s)%nat by lia.
  rewrite seq_app, map_app, sum_app, IH. cbn [Nat.add].
  rewrite (seq_offset (dn * s) s), map_map.
  rewrite (map_ext_in (fun t => f ((t + dn * s) mod s)%nat) f); [lia|].
  intros t Ht. apply in_seq in Ht.
  rewrite Nat.Div0.mod_add, Nat.mod_small by lia. reflexivity.
Qed.

Lemma sum_of_minimums :
  sum (map (fun t => nth t (shift_min self) 0) (seq 0 (slots self)))
  = sum (shift_min self).
Proof.
  unfold slots. rewrite (wf_shift_per_day self wf).
  rewrite <- (map_by_index 0 (fun x => x)), map_id. reflexivity.
Qed.

End Idle.

(** ** The instance of the constructor *)

Lemma init_well_formed (p : Z) : well_formed (__init__ p).
Proof.
  constructor; cbn; try discriminate; try reflexivity.
  - repeat constructor; cbn; intuition discriminate.
  - repeat constructor.
Qed.

Lemma init_capacity_consistent (p : Z) : capacity_consistent (__init__ p).
Proof. split; cbn; repeat constructor; lia. Qed.

Lemma init_capacity_ordered (p : Z) :
  Forall2 Z.le (shift_min (__init__ p)) (shift_max (__init__ p)).
Proof. apply init_capacity_consistent. Qed.

Lemma init_len (p : Z) : __len__ (__init__ p) = 168%nat.
Proof. reflexivity. Qed.

(** The cost on the instance of the constructor, for any penalty weight. *)
Lemma init_get_cost (p : Z) (schedule : list Z) :
  length schedule = 168%nat ->
  get_cost (__init__ p) schedule
  = Ok (p * (consecutive_total (__init__ p) schedule
             + capacity_total (__init__ p) schedule
             + overload_total (__init__ p) schedule)
        + preference_total (__init__ p) schedule).
Proof. intros H. apply (get_cost_totals _ (init_well_formed p)). exact H. Qed.

(** Nobody at work: the 35 missed minimums of the week, times the weight. *)
Lemma init_idle_cost (p : Z) :
  get_cost (__init__ p) (repeat 0 168) = Ok (p * 35).
Proof.
  rewrite init_get_cost by reflexivity.
  rewrite consecutive_total_idle, preference_total_idle.
  rewrite overload_total_idle by (cbn; lia).
  rewrite (capacity_total_idle _ 168 (init_capacity_consistent p)).
  f_equal. change (sum _) with 35. lia.
Qed.

(** ** The properties of the specification *)

Ltac by_evaluation :=
  first
    [ reflexivity
    | constructor; cbn; try discriminate; try reflexivity;
      repeat constructor; cbn; intuition (discriminate || lia) ].

(** C1. For a schedule whose length is [__len__], [get_cost] returns the
    penalty weight times the sum of the three hard counts (consecutive shifts,
    teachers per shift, shifts per week) plus the preference count, and
    nothing else.  The decoded dictionary and the four counts are the ones the
    entries of the schedule determine: the rows of the schedule under the
    teachers, and the reference totals over these rows. *)
Theorem get_cost_weighted_counts
    (self : TeacherSchedulingProblem) (schedule : list Z) :
  well_formed self ->
  length schedule = __len__ self ->
  let d := combine (teachers self) (rows self schedule) in
  get_teacher_shifts self schedule = Ok d
  /\ count_consecutive_shift_violations d = consecutive_total self schedule
  /\ count_shifts_per_week_violations self d
     = Ok (concat (map (fun ts =>
                          map sum (windows self (shifts_per_week self) ts))
                     (rows self schedule)),
           overload_total self schedule)
  /\ count_teachers_per_shift_violations self d
     = Ok (map (headcount self schedule) (seq 0 (days self * slots self)),
           capacity_total self schedule)
  /\ count_shift_preference_violations self d
     = Ok (preference_total self schedule)
  /\ get_cost self schedule
     = Ok (hard_constraint_penalty self
           * (consecutive_total self schedule + capacity_total self schedule
              + overload_total self schedule)
           + preference_total self schedule).
Proof.
  intros wf Hlen d. subst d.
  split; [apply (get_teacher_shifts_rows self wf)|].
  split; [rewrite count_consecutive_sum, values_decoded; reflexivity|].
  split.
  { rewrite count_shifts_per_week_windows
      by apply (shifts_per_week_positive self wf).
    rewrite values_decoded. reflexivity. }
  split; [apply (count_teachers_per_shift_headcount self wf), Hlen|].
  split; [apply (count_shift_preference_unwanted self wf), Hlen|].
  apply (get_cost_totals self wf), Hlen.
Qed.

Lemma get_cost_weighted_counts_witness :
  well_formed (__init__ 10)
  /\ length six_in_a_row = __len__ (__init__ 10)
  /\ consecutive_total (__init__ 10) six_in_a_row = 5
  /\ capacity_total (__init__ 10) six_in_a_row = 29
  /\ overload_total (__init__ 10) six_in_a_row = 1
  /\ preference_total (__init__ 10) six_in_a_row = 4
  /\ count_consecutive_shift_violations
       (combine (teachers (__init__ 10)) (rows (__init__ 10) six_in_a_row))
     = 5
  /\ count_shift_preference_violations (__init__ 10)
       (combine (teachers (__init__ 10)) (rows (__init__ 10) six_in_a_row))
     = Ok 4
  /\ get_cost (__init__ 10) six_in_a_row = Ok 354.
Proof.
  assert (Hwf : well_formed (__init__ 10)) by by_evaluation.
  assert (Hlen : length six_in_a_row = __len__ (__init__ 10)) by reflexivity.
  assert (Hc : consecutive_total (__init__ 10) six_in_a_row = 5)
    by (vm_compute; reflexivity).
  assert (Ht : capacity_total (__init__ 10) six_in_a_row = 29)
    by (vm_compute; reflexivity).
  assert (Hw : overload_total (__init__ 10) six_in_a_row = 1)
    by (vm_compute; reflexivity).
  assert (Hs : preference_total (__init__ 10) six_in_a_row = 4)
    by (vm_compute; reflexivity).
  destruct (get_cost_weighted_counts (__init__ 10) six_in_a_row Hwf Hlen)
    as [_ [Hcons [_ [_ [Hpref Hcost]]]]].
  split; [exact Hwf|]. split; [exact Hlen|]. split; [exact Hc|].
  split; [exact Ht|]. split; [exact Hw|]. split; [exact Hs|].
  split; [rewrite Hcons; exact Hc|].
  split; [rewrite Hpref, Hs; reflexivity|].
  rewrite Hcost, Hc, Ht, Hw, Hs. reflexivity.
Defined.

(** C2. The consecutive-shift count of a dictionary is, summed over the
    teachers, the number of index pairs [(j, j+1)] of the teacher's flat
    sequence holding 1 at both positions; [j] ranges over the whole sequence,
    so pairs across a day boundary count and a longer run counts every pair in
    it.  A run of exactly three 1's (bounded by other values or by the ends of
    the sequence) contributes exactly 2, and a run of exactly two contributes
    exactly 1. *)
Theorem consecutive_counts_adjacent_pairs :
  (forall d : dict (list Z),
     count_consecutive_shift_violations d = sum (map adjacent_ones (values d)))
  /\ (forall (t : string) (pre post : list Z),
        last pre 0 <> 1 -> hd 0 post <> 1 ->
        count_consecutive_shift_violations [(t, pre ++ [1; 1; 1] ++ post)]
        = count_consecutive_shift_violations [(t, pre)]
          + count_consecutive_shift_violations [(t, post)] + 2)
  /\ (forall (t : string) (pre post : list Z),
        last pre 0 <> 1 -> hd 0 post <> 1 ->
        count_consecutive_shift_violations [(t, pre ++ [1; 1] ++ post)]
        = count_consecutive_shift_violations [(t, pre)]
          + count_consecutive_shift_violations [(t, post)] + 1).
Proof.
  split; [exact count_consecutive_sum|].
  split; intros t pre post Hpre Hpost; rewrite !count_consecutive_single.
  - apply (adjacent_ones_isolated_run pre post 3); [lia|assumption..].
  - apply (adjacent_ones_isolated_run pre post 2); [lia|assumption..].
Qed.

Lemma consecutive_counts_adjacent_pairs_witness :
  last [0; 1; 0] 0 <> 1
  /\ hd 0 [0; 1; 1; 0] <> 1
  /\ count_consecutive_shift_violations
       [("A"%string, [0; 1; 0] ++ [1; 1; 1] ++ [0; 1; 1; 0])]
     = count_consecutive_shift_violations [("A"%string, [0; 1; 0])]
       + count_consecutive_shift_violations [("A"%string, [0; 1; 1; 0])] + 2.
Proof.
  assert (Hpre : last [0; 1; 0] 0 <> 1) by (simpl; lia).
  assert (Hpost : hd 0 [0; 1; 1; 0] <> 1) by (simpl; lia).
  split; [exact Hpre|]. split; [exact Hpost|].
  exact (proj1 (proj2 consecutive_counts_adjacent_pairs)
           "A"%string [0; 1; 0] [0; 1; 1; 0] Hpre Hpost).
Defined.

(** C6. [get_cost] fails exactly when the length of the schedule differs from
    [__len__]: on a mismatch the first statement raises the [ValueError],
    whatever the counts would do on that schedule (this half needs nothing of
    the instance), and a schedule of the right length always gets a value. *)
Theorem get_cost_fails_iff_length_differs
    (self : TeacherSchedulingProblem) (schedule : list Z) :
  (length schedule <> __len__ self ->
   get_cost self schedule
   = Raise (ValueError "size of schedule list should be equal to "
              [Z.of_nat (__len__ self)]))
  /\ (well_formed self ->
      length schedule = __len__ self ->
      exists cost, get_cost self schedule = Ok cost)
  /\ (well_formed self ->
      ((exists e, get_cost self schedule = Raise e)
       <-> length schedule <> __len__ self)).
Proof.
  assert (Hraise : length schedule <> __len__ self ->
                   get_cost self schedule
                   = Raise (ValueError "size of schedule list should be equal to "
                              [Z.of_nat (__len__ self)])).
  { intros Hne. unfold get_cost.
    destruct (Nat.eqb_spec (length schedule) (__len__ self)) as [E|_];
      [contradiction|reflexivity]. }
  split; [exact Hraise|].
  split.
  - intros wf Hlen. eexists. apply (get_cost_totals self wf), Hlen.
  - intros wf. split.
    + intros [e He] Hlen.
      rewrite (get_cost_totals self wf) in He by assumption. discriminate.
    + intros Hne. eexists. apply Hraise, Hne.
Qed.

Lemma get_cost_fails_iff_length_differs_witness :
  (length [1; 0; 1] <> __len__ (__init__ 10)
   /\ get_cost (__init__ 10) [1; 0; 1]
      = Raise (ValueError "size of schedule list should be equal to " [168]))
  /\ (well_formed (__init__ 10)
      /\ length six_in_a_row = __len__ (__init__ 10)
      /\ exists cost, get_cost (__init__ 10) six_in_a_row = Ok cost).
Proof.
  assert (Hne : length [1; 0; 1] <> __len__ (__init__ 10))
    by (vm_compute; lia).
  assert (Hwf : well_formed (__init__ 10)) by by_evaluation.
  assert (Hlen : length six_in_a_row = __len__ (__init__ 10)) by reflexivity.
  split.
  - split; [exact Hne|].
    exact (proj1 (get_cost_fails_iff_length_differs (__init__ 10) [1; 0; 1]) Hne).
  - split; [exact Hwf|]. split; [exact Hlen|].
    exact (proj1 (proj2 (get_cost_fails_iff_length_differs (__init__ 10)
                           six_in_a_row)) Hwf Hlen).
Defined.

Lemma window_length_per_week (self : TeacherSchedulingProblem) :
  well_formed self -> weeks self <> 0%nat ->
  shifts_per_week self = (days self * slots self / weeks self)%nat.
Proof.
  intros wf Hw. unfold days, slots. rewrite (wf_shifts_per_week self wf).
  replace (7 * weeks self * shift_per_day self)%nat
    with (7 * shift_per_day self * weeks self)%nat by lia.
  symmetry. apply Nat.div_mul. exact Hw.
Qed.

Lemma period_as_weeks (self : TeacherSchedulingProblem) :
  well_formed self ->
  (days self * slots self)%nat = (weeks self * shifts_per_week self)%nat.
Proof.
  intros wf. unfold days, slots. rewrite (wf_shifts_per_week self wf). lia.
Qed.

(** C3. The weekly-overload count cuts every teacher's sequence into
    [weeks] windows of length [shifts_per_week] = D*S / weeks that follow one
    another and together make up the sequence, sums each window (on
    worked-flags: counts its 1's), and adds [sum - max_shifts_per_week] for
    every window whose sum exceeds the maximum.  A window with max + 3 shifts
    contributes exactly 3; a window at or below the maximum contributes 0. *)
Theorem weekly_overload_by_windows
    (self : TeacherSchedulingProblem) (schedule : list Z) :
  well_formed self ->
  length schedule = __len__ self ->
  let len := shifts_per_week self in
  (weeks self <> 0%nat -> len = (days self * slots self / weeks self)%nat)
  /\ (forall k, (k < workers self)%nat ->
        concat (windows self len (worker_shifts self schedule k))
        = worker_shifts self schedule k
        /\ Forall (fun w => length w = len)
             (windows self len (worker_shifts self schedule k)))
  /\ (exists d,
        get_teacher_shifts self schedule = Ok d
        /\ count_shifts_per_week_violations self d
           = Ok (concat (map (fun ts => map sum (windows self len ts))
                           (rows self schedule)),
                 sum (map (fun ts =>
                             sum (map (fun w => overload self (sum w))
                                    (windows self len ts)))
                        (rows self schedule))))
  /\ (binary schedule ->
      forall k n, sum (window len (worker_shifts self schedule k) n)
                  = ones (window len (worker_shifts self schedule k) n))
  /\ (forall w, sum w = max_shifts_per_week self + 3 -> overload self (sum w) = 3)
  /\ (forall w, sum w <= max_shifts_per_week self -> overload self (sum w) = 0).
Proof.
  intros wf Hlen len. subst len.
  split; [apply window_length_per_week, wf|].
  split.
  { intros k Hk.
    assert (Hrow : length (worker_shifts self schedule k)
                   = (weeks self * shifts_per_week self)%nat)
      by (rewrite (worker_shifts_length self wf) by assumption;
          apply period_as_weeks, wf).
    split; [apply windows_concat|apply windows_length]; exact Hrow. }
  split.
  { eexists. split; [apply (get_teacher_shifts_rows self wf)|].
    rewrite count_shifts_per_week_windows
      by apply (shifts_per_week_positive self wf).
    rewrite values_decoded. reflexivity. }
  split.
  { intros Hb k n. apply sum_binary_ones. unfold window, worker_shifts.
    apply binary_slice, binary_slice, Hb. }
  split.
  - intros w Hw. apply overload_excess; [lia|exact Hw].
  - intros w Hw. apply overload_within. exact Hw.
Qed.

Lemma weekly_overload_by_windows_witness :
  well_formed (__init__ 10)
  /\ length six_in_a_row = __len__ (__init__ 10)
  /\ exists d,
       get_teacher_shifts (__init__ 10) six_in_a_row = Ok d
       /\ count_shifts_per_week_violations (__init__ 10) d
          = Ok ([6; 0; 0; 0; 0; 0; 0; 0], 1).
Proof.
  assert (Hwf : well_formed (__init__ 10)) by by_evaluation.
  assert (Hlen : length six_in_a_row = __len__ (__init__ 10)) by reflexivity.
  split; [exact Hwf|]. split; [exact Hlen|].
  exact (proj1 (proj2 (proj2
           (weekly_overload_by_windows (__init__ 10) six_in_a_row Hwf Hlen)))).
Defined.

Lemma nth_ordered (l1 l2 : list Z) (t : nat) :
  Forall2 Z.le l1 l2 -> nth t l1 0 <= nth t l2 0.
Proof.
  intros H. revert t.
  induction H as [|x y l1 l2 Hxy _ IH]; intros [|t]; simpl; try lia. apply IH.
Qed.

(** C4. The capacity count sums, for every flat position of the period, the
    worked-flags of all teachers at that position; the slot type of position
    [j] is [j mod S]; every position adds [count - max] when its headcount
    exceeds the maximum of its slot type and [min - count] when it is below
    the minimum.  Both directions are penalised, each by its magnitude. *)
Theorem capacity_by_position
    (self : TeacherSchedulingProblem) (schedule : list Z) :
  well_formed self ->
  Forall2 Z.le (shift_min self) (shift_max self) ->
  length schedule = __len__ self ->
  (exists d,
     get_teacher_shifts self schedule = Ok d
     /\ count_teachers_per_shift_violations self d
        = Ok (map (headcount self schedule) (seq 0 (days self * slots self)),
              sum (map (fun j =>
                          capacity_penalty self (j mod slots self)
                            (headcount self schedule j))
                     (seq 0 (days self * slots self)))))
  /\ (forall j,
        headcount self schedule j
        = sum (map (fun k =>
                      nth j (slice schedule (k * (days self * slots self))
                               ((k + 1) * (days self * slots self))) 0)
                 (seq 0 (workers self))))
  /\ (forall t c,
        (nth t (shift_max self) 0 < c ->
         capacity_penalty self t c = c - nth t (shift_max self) 0)
        /\ (c < nth t (shift_min self) 0 ->
            capacity_penalty self t c = nth t (shift_min self) 0 - c)
        /\ (nth t (shift_min self) 0 <= c <= nth t (shift_max self) 0 ->
            capacity_penalty self t c = 0)).
Proof.
  intros wf Hle Hlen.
  split.
  { eexists. split; [apply (get_teacher_shifts_rows self wf)|].
    rewrite (count_teachers_per_shift_headcount self wf) by assumption.
    do 3 f_equal. apply map_ext. intros j.
    apply capacity_branch_penalty. exact Hle. }
  split; [reflexivity|].
  intros t c. pose proof (nth_ordered _ _ t Hle) as Hord.
  unfold capacity_penalty.
  destruct (Z.gtb_spec c (nth t (shift_max self) 0));
    destruct (Z.ltb_spec c (nth t (shift_min self) 0)); repeat split; lia.
Qed.

Lemma capacity_by_position_witness :
  well_formed (__init__ 10)
  /\ Forall2 Z.le (shift_min (__init__ 10)) (shift_max (__init__ 10))
  /\ length six_in_a_row = __len__ (__init__ 10)
  /\ exists d,
       get_teacher_shifts (__init__ 10) six_in_a_row = Ok d
       /\ count_teachers_per_shift_violations (__init__ 10) d
          = Ok ([1; 1; 1; 1; 1; 1; 0; 0; 0; 0; 0; 0; 0; 0; 0; 0; 0; 0; 0; 0; 0],
                29).
Proof.
  assert (Hwf : well_formed (__init__ 10)) by by_evaluation.
  assert (Hle : Forall2 Z.le (shift_min (__init__ 10)) (shift_max (__init__ 10)))
    by (cbn; repeat constructor; lia).
  assert (Hlen : length six_in_a_row = __len__ (__init__ 10)) by reflexivity.
  split; [exact Hwf|]. split; [exact Hle|]. split; [exact Hlen|].
  exact (proj1 (capacity_by_position (__init__ 10) six_in_a_row Hwf Hle Hlen)).
Defined.

Lemma tiled_preference_day (self : TeacherSchedulingProblem) (k day slot : nat) :
  (slot < slots self)%nat ->
  tiled_preference self k (day * slots self + slot)
  = nth slot (nth k (shift_preference self) []) 1.
Proof.
  intros H. unfold tiled_preference.
  rewrite Nat.add_comm, Nat.Div0.mod_add, Nat.mod_small by assumption.
  reflexivity.
Qed.

(** C5. The preference count tiles each teacher's per-day pattern over the days
    of the period (position [day * S + slot] carries the pattern's entry for
    [slot]) and adds exactly 1 for every position of the period where the
    tiled preference is 0 and the schedule has the teacher at work (1).  The
    constructor sets up a period of one week. *)
Theorem preference_by_position
    (self : TeacherSchedulingProblem) (schedule : list Z) :
  well_formed self ->
  weeks self = 1%nat ->
  length schedule = __len__ self ->
  (exists d,
     get_teacher_shifts self schedule = Ok d
     /\ count_shift_preference_violations self d
        = Ok (sum (map (fun k =>
                          Z.of_nat
                            (length
                               (filter (unwanted self schedule k)
                                  (seq 0 (days self * slots self)))))
                     (seq 0 (workers self)))))
  /\ (forall k j,
        unwanted self schedule k j = true
        <-> tiled_preference self k j = 0
            /\ nth j (worker_shifts self schedule k) 0 = 1)
  /\ (forall k day slot,
        (slot < slots self)%nat ->
        tiled_preference self k (day * slots self + slot)
        = nth slot (nth k (shift_preference self) []) 1).
Proof.
  intros wf Hw Hlen.
  split.
  { eexists. split; [apply (get_teacher_shifts_rows self wf)|].
    rewrite (count_shift_preference_unwanted self wf) by assumption.
    rewrite (compared_single_week self wf) by assumption. reflexivity. }
  split.
  - intros k j. unfold unwanted.
    rewrite andb_true_iff, !Z.eqb_eq. reflexivity.
  - intros k day slot. apply tiled_preference_day.
Qed.

Lemma preference_by_position_witness :
  well_formed (__init__ 10)
  /\ weeks (__init__ 10) = 1%nat
  /\ length six_in_a_row = __len__ (__init__ 10)
  /\ exists d,
       get_teacher_shifts (__init__ 10) six_in_a_row = Ok d
       /\ count_shift_preference_violations (__init__ 10) d = Ok 4.
Proof.
  assert (Hwf : well_formed (__init__ 10)) by by_evaluation.
  assert (Hw : weeks (__init__ 10) = 1%nat) by reflexivity.
  assert (Hlen : length six_in_a_row = __len__ (__init__ 10)) by reflexivity.
  split; [exact Hwf|]. split; [exact Hw|]. split; [exact Hlen|].
  exact (proj1 (preference_by_position (__init__ 10) six_in_a_row Hwf Hw Hlen)).
Defined.

(** C7. For the all-zero schedule of length [__len__] the consecutive-shift
    count is 0, the preference count is 0, and the capacity count is the sum,
    over every position of the period, of the minimum headcount of the
    position's slot type: every minimum of every day is missed in full. *)
Theorem idle_schedule_counts (self : TeacherSchedulingProblem) :
  well_formed self ->
  capacity_consistent self ->
  exists d total_per_shift_list,
    get_teacher_shifts self (repeat 0 (__len__ self)) = Ok d
    /\ count_consecutive_shift_violations d = 0
    /\ count_shift_preference_violations self d = Ok 0
    /\ count_teachers_per_shift_violations self d
       = Ok (total_per_shift_list,
             sum (map (fun j => nth (j mod slots self) (shift_min self) 0)
                    (seq 0 (days self * slots self))))
    /\ sum (map (fun j => nth (j mod slots self) (shift_min self) 0)
              (seq 0 (days self * slots self)))
       = Z.of_nat (days self) * sum (shift_min self).
Proof.
  intros wf Hc.
  assert (Hlen : length (repeat 0 (__len__ self)) = __len__ self)
    by apply repeat_length.
  eexists _, _.
  split; [apply (get_teacher_shifts_rows self wf)|].
  split.
  { rewrite count_consecutive_sum, values_decoded.
    apply (consecutive_total_idle self). }
  split.
  { rewrite (count_shift_preference_unwanted self wf) by assumption.
    f_equal. apply (preference_total_idle self). }
  split.
  { rewrite (count_teachers_per_shift_headcount self wf) by assumption.
    f_equal. f_equal. apply (capacity_total_idle self). exact Hc. }
  rewrite (sum_over_period (fun t => nth t (shift_min self) 0))
    by apply (slots_positive self wf).
  rewrite (sum_of_minimums self wf). reflexivity.
Qed.

Lemma idle_schedule_counts_witness :
  well_formed (__init__ 10)
  /\ capacity_consistent (__init__ 10)
  /\ exists d total_per_shift_list,
       get_teacher_shifts (__init__ 10) (repeat 0 168) = Ok d
       /\ count_consecutive_shift_violations d = 0
       /\ count_shift_preference_violations (__init__ 10) d = Ok 0
       /\ count_teachers_per_shift_violations (__init__ 10) d
          = Ok (total_per_shift_list, 35)
       /\ 35 = 7 * (2 + 2 + 1).
Proof.
  assert (Hwf : well_formed (__init__ 10)) by by_evaluation.
  assert (Hc : capacity_consistent (__init__ 10))
    by (split; cbn; repeat constructor; lia).
  split; [exact Hwf|]. split; [exact Hc|].
  exact (idle_schedule_counts (__init__ 10) Hwf Hc).
Defined.

Lemma keys_decoded (self : TeacherSchedulingProblem) (schedule : list Z) :
  map fst (combine (teachers self) (rows self schedule)) = teachers self.
Proof.
  assert (H : forall (A B : Type) (l1 : list A) (l2 : list B),
             length l1 = length l2 -> map fst (combine l1 l2) = l1).
  { clear. induction l1 as [|a l1 IH]; intros [|b l2] H; try discriminate;
      [reflexivity|]. simpl. f_equal. apply IH. simpl in H. lia. }
  apply H. rewrite rows_length. reflexivity.
Qed.

(** C8. [__len__] is W*D*S.  For a schedule of that length
    [get_teacher_shifts] maps the teachers, in their order, to consecutive
    slices: teacher [k] gets the positions [k*D*S, (k+1)*D*S) of the schedule,
    D*S entries, and the slices concatenated in teacher order give back the
    schedule. *)
Theorem decode_by_contiguous_slices
    (self : TeacherSchedulingProblem) (schedule : list Z) :
  well_formed self ->
  __len__ self = (workers self * days self * slots self)%nat
  /\ (length schedule = __len__ self ->
      exists d,
        get_teacher_shifts self schedule = Ok d
        /\ map fst d = teachers self
        /\ (forall k t,
              nth_error (teachers self) k = Some t ->
              let shifts :=
                slice schedule (k * (days self * slots self))
                  ((k + 1) * (days self * slots self)) in
              lookup d t = Ok shifts
              /\ length shifts = (days self * slots self)%nat
              /\ forall j, (j < days self * slots self)%nat ->
                   nth j shifts 0
                   = nth (k * (days self * slots self) + j) schedule 0)
        /\ concat (values d) = schedule).
Proof.
  intros wf.
  split; [rewrite (len_value self wf); lia|].
  intros Hlen. eexists.
  split; [apply (get_teacher_shifts_rows self wf)|].
  split; [apply keys_decoded|].
  split.
  - intros k t Hk shifts. subst shifts.
    assert (Hlt : (k < workers self)%nat)
      by (apply nth_error_Some; rewrite Hk; discriminate).
    split; [apply (lookup_decoded self wf), Hk|].
    split; [apply (worker_shifts_length self wf); assumption|].
    intros j Hj.
    replace ((k + 1) * (days self * slots self))%nat
      with (k * (days self * slots self) + days self * slots self)%nat by lia.
    apply slice_nth. exact Hj.
  - rewrite values_decoded. apply (rows_concat self wf), Hlen.
Qed.

Lemma decode_by_contiguous_slices_witness :
  well_formed (__init__ 10)
  /\ __len__ (__init__ 10) = (8 * 7 * 3)%nat
  /\ (length six_in_a_row = __len__ (__init__ 10)
      /\ exists d,
           get_teacher_shifts (__init__ 10) six_in_a_row = Ok d
           /\ map fst d = ["A"; "B"; "C"; "D"; "E"; "F"; "G"; "H"]%string
           /\ concat (values d) = six_in_a_row).
Proof.
  assert (Hwf : well_formed (__init__ 10)) by by_evaluation.
  assert (Hlen : length six_in_a_row = __len__ (__init__ 10)) by reflexivity.
  pose proof (decode_by_contiguous_slices (__init__ 10) six_in_a_row Hwf)
    as [Hl Hd].
  split; [exact Hwf|]. split; [exact Hl|]. split; [exact Hlen|].
  destruct (Hd Hlen) as [d [Hget [Hkeys [_ Hcat]]]].
  exists d. split; [exact Hget|]. split; [exact Hkeys|exact Hcat].
Defined.


Lemma same_content (s1 s2 : list Z) :
  length s1 = length s2 -> (forall i, nth i s1 0 = nth i s2 0) -> s1 = s2.
Proof. intros Hlen Hnth. apply (nth_ext s1 s2 0 0 Hlen). intros i _. apply Hnth. Qed.

Lemma get_teacher_shifts_of_items
    (self : TeacherSchedulingProblem) (o : Individual) :
  get_teacher_shifts_of self o = get_teacher_shifts self (items o).
Proof. reflexivity. Qed.





(** C10. [get_cost] checks the length of the schedule and not its entries: a
    schedule of the right length is given a value whatever its entries, and
    the weekly sums and the headcounts are the plain sums of the entries.  In
    the schedule [off_range] the entries 2 and -1 reach the weekly sums and
    the headcounts as 2 and -1. *)
Theorem entries_not_validated :
  (forall (self : TeacherSchedulingProblem) (schedule : list Z),
     well_formed self ->
     length schedule = __len__ self ->
     exists d weekly capacity cost,
       get_teacher_shifts self schedule = Ok d
       /\ count_shifts_per_week_violations self d
          = Ok (concat (map (fun ts =>
                               map sum (windows self (shifts_per_week self) ts))
                          (rows self schedule)),
                weekly)
       /\ count_teachers_per_shift_violations self d
          = Ok (map (headcount self schedule) (seq 0 (days self * slots self)),
                capacity)
       /\ get_cost self schedule = Ok cost)
  /\ (In 2 off_range /\ In (-1) off_range
      /\ length off_range = __len__ (__init__ 10)
      /\ get_cost (__init__ 10) off_range = Ok 340
      /\ exists d weekly capacity,
           get_teacher_shifts (__init__ 10) off_range = Ok d
           /\ count_shifts_per_week_violations (__init__ 10) d
              = Ok ([2; -1; 0; 0; 0; 0; 0; 0], weekly)
           /\ count_teachers_per_shift_violations (__init__ 10) d
              = Ok ([2; -1; 0; 0; 0; 0; 0; 0; 0; 0; 0; 0; 0; 0;
                     0; 0; 0; 0; 0; 0; 0], capacity)).
Proof.
  split.
  - intros self schedule wf Hlen. eexists _, _, _, _.
    split; [apply (get_teacher_shifts_rows self wf)|].
    split.
    { rewrite count_shifts_per_week_windows
        by apply (shifts_per_week_positive self wf).
      rewrite values_decoded. reflexivity. }
    split; [apply (count_teachers_per_shift_headcount self wf), Hlen|].
    apply (get_cost_totals self wf), Hlen.
  - split; [left; reflexivity|].
    split; [unfold off_range; cbn; do 22 right; left; reflexivity|].
    split; [reflexivity|].
    split; [vm_compute; reflexivity|].
    eexists _, _, _.
    split; [vm_compute; reflexivity|].
    split; vm_compute; reflexivity.
Qed.

Lemma entries_not_validated_witness :
  well_formed (__init__ 10)
  /\ length off_range = __len__ (__init__ 10)
  /\ exists d weekly capacity cost,
       get_teacher_shifts (__init__ 10) off_range = Ok d
       /\ count_shifts_per_week_violations (__init__ 10) d
          = Ok (concat
                  (map (fun ts =>
                          map sum
                            (windows (__init__ 10)
                               (shifts_per_week (__init__ 10)) ts))
                     (rows (__init__ 10) off_range)),
                weekly)
       /\ count_teachers_per_shift_violations (__init__ 10) d
          = Ok (map (headcount (__init__ 10) off_range)
                  (seq 0 (days (__init__ 10) * slots (__init__ 10))),
                capacity)
       /\ get_cost (__init__ 10) off_range = Ok cost.
Proof.
  assert (Hwf : well_formed (__init__ 10)) by by_evaluation.
  assert (Hlen : length off_range = __len__ (__init__ 10)) by reflexivity.
  split; [exact Hwf|]. split; [exact Hlen|].
  exact (proj1 entries_not_validated (__init__ 10) off_range Hwf Hlen).
Defined.

(** ** Further properties of the decoding *)

Section DecodingAnyLength.

Context {A : Type}.

Lemma firstn_then_slice (l : list A) (a n : nat) :
  firstn a l ++ slice l a (a + n) = firstn (a + n) l.
Proof.
  unfold slice. replace (a + n - a)%nat with n by lia.
  revert l. induction a as [|a IH]; intros l; [reflexivity|].
  destruct l as [|x l]; [simpl; destruct n; reflexivity|].
  cbn [firstn skipn Nat.add app]. f_equal. apply IH.
Qed.

(** Consecutive slices of equal length cover a prefix of any list. *)
Lemma slices_concat_prefix (n : nat) (l : list A) (k : nat) :
  concat (map (fun i => slice l (i * n) ((i + 1) * n)) (seq 0 k))
  = firstn (k * n) l.
Proof.
  induction k as [|k IH]; [reflexivity|].
  rewrite seq_S, map_app, concat_app, IH. cbn [map concat Nat.add].
  rewrite app_nil_r.
  replace ((k + 1) * n)%nat with (k * n + n)%nat by lia.
  rewrite firstn_then_slice. f_equal. lia.
Qed.

(** Cutting a concatenation of equally long rows gives the rows back. *)
Lemma slice_of_concat (n : nat) (rs : list (list A)) :
  Forall (fun r => length r = n) rs ->
  forall k, (k < length rs)%nat ->
    slice (concat rs) (k * n) ((k + 1) * n) = nth k rs [].
Proof.
  induction 1 as [|r rs Hr _ IH]; intros k Hk; [simpl in Hk; lia|].
  unfold slice in *. replace ((k + 1) * n - k * n)%nat with n in * by lia.
  destruct k as [|k]; cbn [concat nth].
  - cbn [Nat.mul skipn]. rewrite firstn_app, Hr, Nat.sub_diag, <- Hr.
    rewrite firstn_all. cbn [firstn]. apply app_nil_r.
  - replace (S k * n)%nat with (length r + k * n)%nat by lia.
    rewrite skipn_app, Nat.add_comm, Nat.add_sub.
    rewrite skipn_all2 by lia. cbn [app].
    specialize (IH k). replace ((k + 1) * n - k * n)%nat with n in IH by lia.
    apply IH. simpl in Hk. lia.
Qed.

End DecodingAnyLength.

(** X1. [get_teacher_shifts] does not look at the length of the schedule: on
    any schedule it returns a dictionary whose keys are the teachers in order
    and whose values, concatenated, are the first [__len__] entries of the
    schedule.  Entries beyond [__len__] are dropped and a short schedule gives
    short or empty sequences; nothing is raised. *)
Theorem decode_any_schedule
    (self : TeacherSchedulingProblem) (schedule : list Z) :
  well_formed self ->
  exists d,
    get_teacher_shifts self schedule = Ok d
    /\ keys d = teachers self
    /\ length (values d) = length (teachers self)
    /\ concat (values d) = firstn (__len__ self) schedule.
Proof.
  intros wf. eexists.
  split; [apply (get_teacher_shifts_rows self wf)|].
  split; [apply keys_decoded|].
  rewrite values_decoded.
  split; [apply rows_length|].
  unfold rows, worker_shifts. rewrite slices_concat_prefix.
  f_equal. symmetry. apply (len_value self wf).
Qed.

Lemma decode_any_schedule_witness :
  well_formed (__init__ 10)
  /\ exists d,
       get_teacher_shifts (__init__ 10) (repeat 1 170) = Ok d
       /\ keys d = ["A"; "B"; "C"; "D"; "E"; "F"; "G"; "H"]%string
       /\ length (values d) = 8%nat
       /\ concat (values d) = repeat 1 168.
Proof.
  assert (Hwf : well_formed (__init__ 10)) by by_evaluation.
  split; [exact Hwf|].
  exact (decode_any_schedule (__init__ 10) (repeat 1 170) Hwf).
Defined.

(** X2. Decoding undoes encoding: for one sequence of D*S entries per teacher,
    [get_teacher_shifts] applied to the sequences laid end to end returns
    exactly these sequences, each under its teacher. *)
Theorem decode_of_concatenation
    (self : TeacherSchedulingProblem) (rs : list (list Z)) :
  well_formed self ->
  length rs = workers self ->
  Forall (fun r => length r = (days self * slots self)%nat) rs ->
  get_teacher_shifts self (concat rs) = Ok (combine (teachers self) rs)
  /\ length (concat rs) = __len__ self.
Proof.
  intros wf Hn Hrs. split.
  - rewrite (get_teacher_shifts_rows self wf). do 2 f_equal.
    unfold rows, worker_shifts. rewrite <- Hn.
    rewrite (map_ext_in _ (fun k => nth k rs [])).
    + symmetry. rewrite <- (map_id rs) at 1.
      apply (map_by_index [] (fun x => x)).
    + intros k Hk. apply in_seq in Hk.
      apply slice_of_concat; [exact Hrs|lia].
  - rewrite (len_value self wf), <- Hn. clear Hn.
    induction Hrs as [|r rs Hr _ IH]; [reflexivity|].
    cbn [concat length]. rewrite length_app, IH, Hr. lia.
Qed.

Lemma decode_of_concatenation_witness :
  well_formed (__init__ 10)
  /\ length (repeat (repeat 1 21) 8) = workers (__init__ 10)
  /\ Forall (fun r => length r = (days (__init__ 10) * slots (__init__ 10))%nat)
       (repeat (repeat 1 21) 8)
  /\ get_teacher_shifts (__init__ 10) (concat (repeat (repeat 1 21) 8))
     = Ok (combine (teachers (__init__ 10)) (repeat (repeat 1 21) 8)).
Proof.
  assert (Hwf : well_formed (__init__ 10)) by by_evaluation.
  assert (Hn : length (repeat (repeat 1 21) 8) = workers (__init__ 10))
    by reflexivity.
  assert (Hrs : Forall
                  (fun r => length r
                            = (days (__init__ 10) * slots (__init__ 10))%nat)
                  (repeat (repeat 1 21) 8))
    by (cbn; repeat constructor).
  split; [exact Hwf|]. split; [exact Hn|]. split; [exact Hrs|].
  exact (proj1 (decode_of_concatenation (__init__ 10) (repeat (repeat 1 21) 8)
                  Hwf Hn Hrs)).
Defined.

(** ** Dictionaries that miss a teacher *)

Section MissingKeys.

Lemma lookup_present {V : Type} (d : dict V) (t : string) :
  In t (keys d) -> exists v, lookup d t = Ok v.
Proof.
  induction d as [|[k v] d IH]; intros H; [contradiction|].
  cbn [lookup]. destruct (String.eqb_spec k t) as [E|Hne]; [eexists; reflexivity|].
  apply IH. destruct H as [H|H]; [contradiction|exact H].
Qed.

Lemma lookup_missing {V : Type} (d : dict V) (t : string) :
  ~ In t (keys d) -> lookup d t = Raise (KeyError t).
Proof.
  induction d as [|[k v] d IH]; intros H; [reflexivity|].
  cbn [lookup]. destruct (String.eqb_spec k t) as [E|Hne].
  - exfalso. apply H. left. exact E.
  - apply IH. intros Hin. apply H. right. exact Hin.
Qed.

Lemma for_each_app {A B : Type} (f : B -> A -> result B) (l1 l2 : list A) (b : B) :
  for_each f (l1 ++ l2) b = bind (for_each f l1 b) (for_each f l2).
Proof.
  revert b. induction l1 as [|x l1 IH]; intros b; [reflexivity|].
  cbn [app for_each]. destruct (f b x); cbn [bind]; [apply IH|reflexivity].
Qed.

Lemma for_each_all_ok {A B : Type} (f : B -> A -> result B) (l : list A) :
  (forall b x, In x l -> exists b', f b x = Ok b') ->
  forall b, exists b', for_each f l b = Ok b'.
Proof.
  induction l as [|x l IH]; intros H b; [eexists; reflexivity|].
  cbn [for_each]. destruct (H b x (or_introl eq_refl)) as [b' E].
  rewrite E. cbn [bind]. apply IH. intros b0 y Hy. apply H. right. exact Hy.
Qed.

Variable self : TeacherSchedulingProblem.
Hypothesis wf : well_formed self.

(** One step of the preference loop, for a teacher that exists. *)
Lemma preference_step_lookup
    (d : dict (list Z)) (violations : Z) (k : nat) (p : list Z) (t : string) :
  nth_error (teachers self) k = Some t ->
  (days <- floordiv (shifts_per_week self) (shift_per_day self) ;;
   let preference := list_mul p days in
   teacher <- getitem (teachers self) k ;;
   shifts <- lookup d teacher ;;
   Ok (fold_left
         (fun violations '(pref, shift) =>
            if (pref =? 0) && (shift =? 1) then violations + 1 else violations)
         (combine preference shifts) violations))
  = (shifts <- lookup d t ;;
     Ok (fold_left
           (fun violations '(pref, shift) =>
              if (pref =? 0) && (shift =? 1) then violations + 1 else violations)
           (combine (list_mul p 7) shifts) violations)).
Proof.
  intros Hk. rewrite (days_per_week self wf). cbn [bind]. cbv zeta.
  unfold getitem. rewrite Hk. reflexivity.
Qed.

Lemma teacher_at (k : nat) :
  (k < length (shift_preference self))%nat ->
  exists t, nth_error (teachers self) k = Some t.
Proof.
  intros Hk. rewrite (wf_preference self wf) in Hk.
  destruct (nth_error (teachers self) k) as [t|] eqn:E; [eexists; reflexivity|].
  apply nth_error_None in E. lia.
Qed.

Lemma preference_ok_when_present (d : dict (list Z)) (ks : list nat) :
  (forall k, In k ks -> (k < length (shift_preference self))%nat) ->
  (forall k t, In k ks -> nth_error (teachers self) k = Some t -> In t (keys d)) ->
  forall v, exists v',
    for_each
      (fun violations '(teacher_index, shift_preference) =>
         days <- floordiv (shifts_per_week self) (shift_per_day self) ;;
         let preference := list_mul shift_preference days in
         teacher <- getitem (teachers self) teacher_index ;;
         shifts <- lookup d teacher ;;
         Ok (fold_left
               (fun violations '(pref, shift) =>
                  if (pref =? 0) && (shift =? 1) then violations + 1
                  else violations)
               (combine preference shifts) violations))
      (map (fun k => (k, nth k (shift_preference self) [])) ks) v
    = Ok v'.
Proof.
  intros Hks Hkeys. apply for_each_all_ok. intros v [k p] Hin.
  apply in_map_iff in Hin. destruct Hin as [k' [E Hk']]. injection E as -> <-.
  destruct (teacher_at k (Hks k Hk')) as [t Ht].
  rewrite (preference_step_lookup d v k _ t Ht).
  destruct (lookup_present d t (Hkeys k t Hk' Ht)) as [shifts Hl].
  rewrite Hl. cbn [bind]. eexists. reflexivity.
Qed.

End MissingKeys.

(** X3. [count_shift_preference_violations] looks every teacher up in the
    dictionary it is given: it returns a count when every teacher is a key, and
    raises [KeyError] for the first teacher, in the order of the teachers, that
    is not. *)
Theorem preference_needs_every_teacher
    (self : TeacherSchedulingProblem) (d : dict (list Z)) :
  well_formed self ->
  ((forall t, In t (teachers self) -> In t (keys d)) ->
   exists violations, count_shift_preference_violations self d = Ok violations)
  /\ (forall k t,
        nth_error (teachers self) k = Some t ->
        ~ In t (keys d) ->
        (forall k' t', (k' < k)%nat ->
           nth_error (teachers self) k' = Some t' -> In t' (keys d)) ->
        count_shift_preference_violations self d = Raise (KeyError t)).
Proof.
  intros wf. unfold count_shift_preference_violations.
  rewrite (enumerate_by_index []). split.
  - intros Hall. apply (preference_ok_when_present self wf).
    + intros k Hk. apply in_seq in Hk. lia.
    + intros k t _ Ht. apply Hall. eapply nth_error_In. exact Ht.
  - intros k t Ht Hmiss Hbefore.
    assert (Hk : (k < length (shift_preference self))%nat).
    { rewrite (wf_preference self wf). apply nth_error_Some. rewrite Ht.
      discriminate. }
    replace (length (shift_preference self))
      with (k + S (length (shift_preference self) - S k))%nat by lia.
    rewrite seq_app, map_app, for_each_app, Nat.add_0_l, <- cons_seq, map_cons.
    destruct (preference_ok_when_present self wf d (seq 0 k)) with (v := 0)
      as [v' Hv'].
    + intros k' Hk'. apply in_seq in Hk'. lia.
    + intros k' t' Hk' Ht'. apply in_seq in Hk'. apply (Hbefore k' t'); [lia|exact Ht'].
    + pose proof (preference_step_lookup self wf d v' k
                      (nth k (shift_preference self) []) t Ht) as Hstep.
      cbv zeta in Hv', Hstep. cbv zeta.
      rewrite Hv'. unfold bind at 1. unfold for_each at 1. cbv beta iota.
      rewrite Hstep, (lookup_missing d t Hmiss). reflexivity.
Qed.

Lemma preference_needs_every_teacher_witness :
  well_formed (__init__ 10)
  /\ nth_error (teachers (__init__ 10)) 1 = Some "B"%string
  /\ ~ In "B"%string (keys [("A"%string, [0; 1; 1])])
  /\ count_shift_preference_violations (__init__ 10) [("A"%string, [0; 1; 1])]
     = Raise (KeyError "B").
Proof.
  assert (Hwf : well_formed (__init__ 10)) by by_evaluation.
  assert (Ht : nth_error (teachers (__init__ 10)) 1 = Some "B"%string)
    by reflexivity.
  assert (Hmiss : ~ In "B"%string (keys [("A"%string, [0; 1; 1])]))
    by (cbn; intuition discriminate).
  split; [exact Hwf|]. split; [exact Ht|]. split; [exact Hmiss|].
  apply (proj2 (preference_needs_every_teacher (__init__ 10)
                  [("A"%string, [0; 1; 1])] Hwf) 1%nat "B"%string Ht Hmiss).
  intros k' t' Hk' Ht'.
  destruct k' as [|k']; [|lia].
  cbn in Ht'. injection Ht' as <-. cbn. left. reflexivity.
Defined.

(** ** Sequences of unequal length *)

Section Ragged.

Context {A : Type} (d : A).

Lemma combine_nth_within {B : Type} (b : B) (l1 : list A) :
  forall (l2 : list B) (j : nat),
    (j < length (combine l1 l2))%nat ->
    nth j (combine l1 l2) (d, b) = (nth j l1 d, nth j l2 b).
Proof.
  induction l1 as [|x l1 IH]; intros [|y l2] j Hj; simpl in Hj; try lia.
  destruct j as [|j]; [reflexivity|]. cbn [combine nth]. apply IH. lia.
Qed.

(** [zip] stops at the shortest list: as many tuples as the shortest list has
    elements, the j-th tuple holding the j-th element of every list. *)
Lemma zip_star_ragged (ls : list (list A)) :
  ls <> [] ->
  Forall (fun l => (length (zip_star ls) <= length l)%nat) ls
  /\ Exists (fun l => length (zip_star ls) = length l) ls
  /\ forall j, (j < length (zip_star ls))%nat ->
       nth j (zip_star ls) [] = map (fun l => nth j l d) ls.
Proof.
  induction ls as [|l ls IH]; intros Hne; [contradiction|].
  destruct ls as [|l' ls].
  - cbn [zip_star]. rewrite length_map.
    split; [constructor; [lia|constructor]|].
    split; [left; reflexivity|].
    intros j Hj. rewrite (nth_indep _ [] [d]) by (rewrite length_map; exact Hj).
    rewrite (map_nth (fun x => [x])). reflexivity.
  - destruct IH as [Hall [Hex Hnth]]; [discriminate|].
    change (zip_star (l :: l' :: ls))
      with (map (fun p => fst p :: snd p) (combine l (zip_star (l' :: ls)))).
    set (zs := zip_star (l' :: ls)) in *.
    rewrite length_map, length_combine.
    split; [|split].
    + constructor; [lia|].
      eapply Forall_impl; [|exact Hall]. cbv beta. intros r Hr. lia.
    + destruct (Nat.le_gt_cases (length l) (length zs)) as [Hle|Hgt].
      * left. lia.
      * right. eapply Exists_impl; [|exact Hex]. cbv beta. intros r Hr. lia.
    + intros j Hj.
      rewrite (nth_indep _ [] ((fun p => fst p :: snd p) (d, [])))
        by (rewrite length_map, length_combine; exact Hj).
      rewrite (map_nth (fun p => fst p :: snd p)).
      rewrite combine_nth_within by (rewrite length_combine; exact Hj).
      cbn [fst snd map]. f_equal. apply Hnth. lia.
Qed.

End Ragged.

Section CapacityAnyDictionary.

Variable self : TeacherSchedulingProblem.
Hypothesis wf : well_formed self.

(** The loop over the positions, for any list of headcounts. *)
Lemma capacity_loop (l : list Z) :
  for_each
    (fun violations '(shift_index, num_of_teachers) =>
       daily_shift_index <- modulo shift_index (shift_per_day self) ;;
       hi <- getitem (shift_max self) daily_shift_index ;;
       if num_of_teachers >? hi then Ok (violations + (num_of_teachers - hi))
       else
         lo <- getitem (shift_min self) daily_shift_index ;;
         if num_of_teachers <? lo then Ok (violations + (lo - num_of_teachers))
         else Ok violations)
    (enumerate l) 0
  = Ok (sum (map (fun j => capacity_branch self (j mod slots self) (nth j l 0))
               (seq 0 (length l)))).
Proof.
  rewrite (enumerate_by_index 0).
  rewrite (for_each_ext _
    (fun v p => Ok (v + capacity_branch self (fst p mod slots self) (snd p))))
    by (intros v [j c] _; apply (capacity_step self wf)).
  rewrite for_each_pure, loop_add, map_map. cbn [fst snd].
  rewrite Z.add_0_l. reflexivity.
Qed.

Lemma count_teachers_per_shift_any (d : dict (list Z)) :
  count_teachers_per_shift_violations self d
  = Ok (map sum (zip_star (values d)),
        sum (map (fun j =>
                    capacity_branch self (j mod slots self)
                      (nth j (map sum (zip_star (values d))) 0))
               (seq 0 (length (map sum (zip_star (values d))))))).
Proof.
  unfold count_teachers_per_shift_violations. cbv zeta.
  rewrite capacity_loop. reflexivity.
Qed.

End CapacityAnyDictionary.

(** X4. [count_teachers_per_shift_violations] accepts sequences of unequal
    length and never raises: the list of headcounts is as long as the shortest
    sequence, its entry [j] is the sum of the entries [j] of all sequences, and
    only these positions are penalised; what the longer sequences hold beyond
    the shortest one is ignored. *)
Theorem capacity_checks_common_positions
    (self : TeacherSchedulingProblem) (d : dict (list Z)) :
  well_formed self ->
  values d <> [] ->
  exists total_per_shift_list violations,
    count_teachers_per_shift_violations self d
    = Ok (total_per_shift_list, violations)
    /\ Forall (fun ts => (length total_per_shift_list <= length ts)%nat)
         (values d)
    /\ Exists (fun ts => length total_per_shift_list = length ts) (values d)
    /\ (forall j, (j < length total_per_shift_list)%nat ->
          nth j total_per_shift_list 0
          = sum (map (fun ts => nth j ts 0) (values d)))
    /\ violations
       = sum (map (fun j =>
                     capacity_branch self (j mod slots self)
                       (nth j total_per_shift_list 0))
                (seq 0 (length total_per_shift_list))).
Proof.
  intros wf Hne. eexists _, _.
  split; [apply (count_teachers_per_shift_any self wf)|].
  destruct (zip_star_ragged 0 (values d) Hne) as [Hall [Hex Hnth]].
  rewrite length_map.
  split; [exact Hall|]. split; [exact Hex|]. split; [|reflexivity].
  intros j Hj. change 0 with (sum []) at 1.
  rewrite (map_nth sum). f_equal. apply Hnth. exact Hj.
Qed.

Lemma capacity_checks_common_positions_witness :
  well_formed (__init__ 10)
  /\ values [("A"%string, [1; 1; 0; 1]); ("B"%string, [1; 0])] <> []
  /\ count_teachers_per_shift_violations (__init__ 10)
       [("A"%string, [1; 1; 0; 1]); ("B"%string, [1; 0])]
     = Ok ([2; 1], 1).
Proof.
  assert (Hwf : well_formed (__init__ 10)) by by_evaluation.
  assert (Hne : values [("A"%string, [1; 1; 0; 1]); ("B"%string, [1; 0])] <> [])
    by discriminate.
  split; [exact Hwf|]. split; [exact Hne|].
  destruct (capacity_checks_common_positions (__init__ 10)
              [("A"%string, [1; 1; 0; 1]); ("B"%string, [1; 0])] Hwf Hne)
    as [l [v [Hcount _]]].
  rewrite Hcount. vm_compute in Hcount. symmetry. exact Hcount.
Defined.

(** ** Schedules without violations *)

Section NoViolation.

Lemma sum_zero_iff (l : list Z) :
  Forall (fun x => 0 <= x) l -> (sum l = 0 <-> Forall (fun x => x = 0) l).
Proof.
  induction 1 as [|x l Hx Hl IH].
  - split; [constructor|reflexivity].
  - rewrite sum_cons. pose proof (sum_nonneg l Hl) as Hs. split.
    + intros H. constructor; [lia|]. apply IH. lia.
    + intros H. inversion H as [|? ? Hx0 Hl0]; subst.
      apply IH in Hl0. lia.
Qed.

Lemma sum_map_zero_iff {A : Type} (f : A -> Z) (l : list A) :
  (forall x, 0 <= f x) ->
  (sum (map f l) = 0 <-> forall x, In x l -> f x = 0).
Proof.
  intros Hf. rewrite sum_zero_iff.
  - rewrite Forall_forall. split.
    + intros H x Hx. apply H. apply in_map. exact Hx.
    + intros H y Hy. apply in_map_iff in Hy. destruct Hy as [x [E Hx]].
      subst y. apply H. exact Hx.
  - rewrite Forall_forall. intros y Hy. apply in_map_iff in Hy.
    destruct Hy as [x [E _]]. subst y. apply Hf.
Qed.

Lemma filter_none {A : Type} (c : A -> bool) (l : list A) :
  length (filter c l) = 0%nat <-> forall x, In x l -> c x = false.
Proof.
  induction l as [|x l IH]; [split; [intros _ y []|reflexivity]|].
  cbn [filter]. destruct (c x) eqn:E; cbn [length].
  - split; [discriminate|]. intros H. rewrite (H x (or_introl eq_refl)) in E.
    discriminate.
  - rewrite IH. split.
    + intros H y [<-|Hy]; [exact E|apply H; exact Hy].
    + intros H y Hy. apply H. right. exact Hy.
Qed.

Lemma of_nat_zero_iff (n : nat) : Z.of_nat n = 0 <-> n = 0%nat.
Proof. lia. Qed.

Lemma adjacent_ones_zero_iff (l : list Z) :
  adjacent_ones l = 0 <-> no_adjacent_ones l.
Proof.
  unfold adjacent_ones, no_adjacent_ones.
  rewrite of_nat_zero_iff, filter_none. split.
  - intros H j Hj [H1 H2].
    assert (Hin : In j (seq 0 (length l - 1))) by (apply in_seq; lia).
    specialize (H j Hin). rewrite H1, H2 in H. discriminate.
  - intros H j Hj. apply in_seq in Hj.
    destruct (Z.eqb_spec (nth j l 0) 1) as [H1|H1]; [|reflexivity].
    destruct (Z.eqb_spec (nth (S j) l 0) 1) as [H2|H2]; [|reflexivity].
    exfalso. apply (H j); [lia|split; assumption].
Qed.

Variable self : TeacherSchedulingProblem.

Lemma overload_zero_iff (n : Z) :
  overload self n = 0 <-> n <= max_shifts_per_week self.
Proof.
  unfold overload. destruct (Z.gtb_spec n (max_shifts_per_week self)); lia.
Qed.

Lemma capacity_branch_zero_iff (t : nat) (c : Z) :
  capacity_branch self t c = 0
  <-> nth t (shift_min self) 0 <= c <= nth t (shift_max self) 0.
Proof.
  unfold capacity_branch.
  destruct (Z.gtb_spec c (nth t (shift_max self) 0));
    destruct (Z.ltb_spec c (nth t (shift_min self) 0)); lia.
Qed.

Lemma consecutive_total_zero_iff (schedule : list Z) :
  consecutive_total self schedule = 0
  <-> forall k, (k < workers self)%nat ->
        no_adjacent_ones (worker_shifts self schedule k).
Proof.
  unfold consecutive_total, rows. rewrite map_map.
  rewrite sum_map_zero_iff by (intros k; apply adjacent_ones_nonneg).
  split; intros H k Hk.
  - apply adjacent_ones_zero_iff, H, in_seq. lia.
  - apply adjacent_ones_zero_iff, H. apply in_seq in Hk. lia.
Qed.

Lemma overload_total_zero_iff (schedule : list Z) :
  overload_total self schedule = 0
  <-> forall k n, (k < workers self)%nat -> (n < weeks self)%nat ->
        sum (window (shifts_per_week self) (worker_shifts self schedule k) n)
        <= max_shifts_per_week self.
Proof.
  unfold overload_total, rows, windows. rewrite map_map.
  rewrite sum_map_zero_iff
    by (intros k; apply sum_map_nonneg; intros w; apply overload_nonneg).
  split.
  - intros H k n Hk Hn.
    assert (Hin : In k (seq 0 (workers self))) by (apply in_seq; lia).
    specialize (H k Hin). rewrite map_map in H.
    rewrite sum_map_zero_iff in H by (intros w; apply overload_nonneg).
    apply overload_zero_iff, H, in_seq. lia.
  - intros H k Hk. apply in_seq in Hk. rewrite map_map.
    apply sum_map_zero_iff; [intros w; apply overload_nonneg|].
    intros n Hn. apply in_seq in Hn. apply overload_zero_iff, H; lia.
Qed.

Lemma capacity_total_zero_iff (schedule : list Z) :
  capacity_total self schedule = 0
  <-> forall j, (j < days self * slots self)%nat ->
        nth (j mod slots self) (shift_min self) 0
        <= headcount self schedule j
        <= nth (j mod slots self) (shift_max self) 0.
Proof.
  unfold capacity_total.
  rewrite sum_map_zero_iff by (intros j; apply capacity_branch_nonneg).
  split; intros H j Hj.
  - apply capacity_branch_zero_iff, H, in_seq. lia.
  - apply capacity_branch_zero_iff, H. apply in_seq in Hj. lia.
Qed.

Lemma preference_total_zero_iff (schedule : list Z) :
  preference_total self schedule = 0
  <-> forall k j, (k < workers self)%nat -> (j < compared self)%nat ->
        unwanted self schedule k j = false.
Proof.
  unfold preference_total.
  rewrite sum_map_zero_iff by (intros k; lia).
  split.
  - intros H k j Hk Hj.
    assert (Hin : In k (seq 0 (workers self))) by (apply in_seq; lia).
    specialize (H k Hin). rewrite of_nat_zero_iff, filter_none in H.
    apply H, in_seq. lia.
  - intros H k Hk. apply in_seq in Hk.
    rewrite of_nat_zero_iff, filter_none.
    intros j Hj. apply in_seq in Hj. apply H; lia.
Qed.

End NoViolation.

Lemma decoded_is_rows
    (self : TeacherSchedulingProblem) (schedule : list Z) (d : dict (list Z)) :
  well_formed self ->
  get_teacher_shifts self schedule = Ok d ->
  d = combine (teachers self) (rows self schedule).
Proof.
  intros wf H. rewrite (get_teacher_shifts_rows self wf) in H.
  injection H as <-. reflexivity.
Qed.

Lemma ok_pair_zero {A : Type} (a : A) (v : Z) :
  (exists l, Ok (a, v) = Ok (l, 0)) <-> v = 0.
Proof.
  split; [intros [l H]; injection H as _ ->; reflexivity|].
  intros ->. eexists. reflexivity.
Qed.

Lemma ok_zero (v : Z) : @Ok Z v = Ok 0 <-> v = 0.
Proof. split; [intros H; injection H as ->; reflexivity|intros ->; reflexivity]. Qed.

(** X5. The consecutive-shift count of a dictionary is 0 exactly when no
    sequence in it has a 1 directly followed by a 1, at any two neighbouring
    positions of the flat sequence. *)
Theorem no_consecutive_violation_iff (d : dict (list Z)) :
  count_consecutive_shift_violations d = 0
  <-> forall ts, In ts (values d) -> no_adjacent_ones ts.
Proof.
  rewrite count_consecutive_sum.
  rewrite sum_map_zero_iff by apply adjacent_ones_nonneg.
  split; intros H ts Hts; apply adjacent_ones_zero_iff, H, Hts.
Qed.

(** X6. [count_shifts_per_week_violations] reports 0 violations exactly when
    in every sequence of the dictionary every week's window sums to at most
    [max_shifts_per_week]. *)
Theorem no_weekly_violation_iff
    (self : TeacherSchedulingProblem) (d : dict (list Z)) :
  well_formed self ->
  (exists weekly_shifts_list,
     count_shifts_per_week_violations self d = Ok (weekly_shifts_list, 0))
  <-> forall ts n, In ts (values d) -> (n < weeks self)%nat ->
        sum (window (shifts_per_week self) ts n) <= max_shifts_per_week self.
Proof.
  intros wf.
  rewrite count_shifts_per_week_windows
    by apply (shifts_per_week_positive self wf).
  rewrite ok_pair_zero.
  rewrite sum_map_zero_iff
    by (intros ts; apply sum_map_nonneg; intros w; apply overload_nonneg).
  unfold windows. split.
  - intros H ts n Hts Hn. specialize (H ts Hts). rewrite map_map in H.
    rewrite sum_map_zero_iff in H by (intros w; apply overload_nonneg).
    apply overload_zero_iff, H, in_seq. lia.
  - intros H ts Hts. rewrite map_map.
    apply sum_map_zero_iff; [intros w; apply overload_nonneg|].
    intros n Hn. apply in_seq in Hn. apply overload_zero_iff, H; [exact Hts|lia].
Qed.

Lemma no_weekly_violation_iff_witness :
  well_formed (__init__ 10)
  /\ ((exists weekly_shifts_list,
         count_shifts_per_week_violations (__init__ 10)
           [("A"%string, [1; 1; 1; 1; 1; 0])]
         = Ok (weekly_shifts_list, 0))
      <-> forall ts n,
            In ts (values [("A"%string, [1; 1; 1; 1; 1; 0])]) ->
            (n < weeks (__init__ 10))%nat ->
            sum (window (shifts_per_week (__init__ 10)) ts n)
            <= max_shifts_per_week (__init__ 10)).
Proof.
  assert (Hwf : well_formed (__init__ 10)) by by_evaluation.
  split; [exact Hwf|].
  exact (no_weekly_violation_iff (__init__ 10)
           [("A"%string, [1; 1; 1; 1; 1; 0])] Hwf).
Defined.

(** X7. For a schedule of the right length the capacity count is 0 exactly
    when at every position of the period the number of teachers at work lies
    between the minimum and the maximum of the position's slot type. *)
Theorem no_capacity_violation_iff
    (self : TeacherSchedulingProblem) (schedule : list Z) (d : dict (list Z)) :
  well_formed self ->
  length schedule = __len__ self ->
  get_teacher_shifts self schedule = Ok d ->
  (exists total_per_shift_list,
     count_teachers_per_shift_violations self d = Ok (total_per_shift_list, 0))
  <-> forall j, (j < days self * slots self)%nat ->
        nth (j mod slots self) (shift_min self) 0
        <= headcount self schedule j
        <= nth (j mod slots self) (shift_max self) 0.
Proof.
  intros wf Hlen Hd. rewrite (decoded_is_rows self schedule d wf Hd).
  rewrite (count_teachers_per_shift_headcount self wf) by assumption.
  rewrite ok_pair_zero. apply capacity_total_zero_iff.
Qed.

Lemma no_capacity_violation_iff_witness :
  well_formed (__init__ 10)
  /\ length six_in_a_row = __len__ (__init__ 10)
  /\ get_teacher_shifts (__init__ 10) six_in_a_row
     = Ok (combine (teachers (__init__ 10)) (rows (__init__ 10) six_in_a_row))
  /\ ((exists total_per_shift_list,
         count_teachers_per_shift_violations (__init__ 10)
           (combine (teachers (__init__ 10)) (rows (__init__ 10) six_in_a_row))
         = Ok (total_per_shift_list, 0))
      <-> forall j, (j < days (__init__ 10) * slots (__init__ 10))%nat ->
            nth (j mod slots (__init__ 10)) (shift_min (__init__ 10)) 0
            <= headcount (__init__ 10) six_in_a_row j
            <= nth (j mod slots (__init__ 10)) (shift_max (__init__ 10)) 0).
Proof.
  assert (Hwf : well_formed (__init__ 10)) by by_evaluation.
  assert (Hlen : length six_in_a_row = __len__ (__init__ 10)) by reflexivity.
  assert (Hd : get_teacher_shifts (__init__ 10) six_in_a_row
               = Ok (combine (teachers (__init__ 10))
                       (rows (__init__ 10) six_in_a_row)))
    by (vm_compute; reflexivity).
  split; [exact Hwf|]. split; [exact Hlen|]. split; [exact Hd|].
  exact (no_capacity_violation_iff (__init__ 10) six_in_a_row _ Hwf Hlen Hd).
Defined.

(** X8. For a schedule of the right length over a period of one week the
    preference count is 0 exactly when no teacher is at work (entry 1) at a
    position where the teacher's tiled preference is 0. *)
Theorem no_preference_violation_iff
    (self : TeacherSchedulingProblem) (schedule : list Z) (d : dict (list Z)) :
  well_formed self ->
  weeks self = 1%nat ->
  length schedule = __len__ self ->
  get_teacher_shifts self schedule = Ok d ->
  count_shift_preference_violations self d = Ok 0
  <-> forall k j, (k < workers self)%nat -> (j < days self * slots self)%nat ->
        ~ (tiled_preference self k j = 0
           /\ nth j (worker_shifts self schedule k) 0 = 1).
Proof.
  intros wf Hw Hlen Hd. rewrite (decoded_is_rows self schedule d wf Hd).
  rewrite (count_shift_preference_unwanted self wf) by assumption.
  rewrite ok_zero. fold (preference_total self schedule).
  rewrite preference_total_zero_iff.
  rewrite (compared_single_week self wf) by assumption.
  split; intros H k j Hk Hj.
  - specialize (H k j Hk Hj). unfold unwanted in H.
    intros [H1 H2]. rewrite H1, H2 in H. discriminate.
  - unfold unwanted.
    destruct (Z.eqb_spec (tiled_preference self k j) 0) as [H1|H1]; [|reflexivity].
    destruct (Z.eqb_spec (nth j (worker_shifts self schedule k) 0) 1) as [H2|H2];
      [|reflexivity].
    exfalso. apply (H k j Hk Hj). split; assumption.
Qed.

Lemma no_preference_violation_iff_witness :
  well_formed (__init__ 10)
  /\ weeks (__init__ 10) = 1%nat
  /\ length (repeat 0 168) = __len__ (__init__ 10)
  /\ get_teacher_shifts (__init__ 10) (repeat 0 168)
     = Ok (combine (teachers (__init__ 10)) (rows (__init__ 10) (repeat 0 168)))
  /\ (count_shift_preference_violations (__init__ 10)
        (combine (teachers (__init__ 10)) (rows (__init__ 10) (repeat 0 168)))
      = Ok 0
      <-> forall k j,
            (k < workers (__init__ 10))%nat ->
            (j < days (__init__ 10) * slots (__init__ 10))%nat ->
            ~ (tiled_preference (__init__ 10) k j = 0
               /\ nth j (worker_shifts (__init__ 10) (repeat 0 168) k) 0 = 1)).
Proof.
  assert (Hwf : well_formed (__init__ 10)) by by_evaluation.
  assert (Hw : weeks (__init__ 10) = 1%nat) by reflexivity.
  assert (Hlen : length (repeat 0 168) = __len__ (__init__ 10)) by reflexivity.
  assert (Hd : get_teacher_shifts (__init__ 10) (repeat 0 168)
               = Ok (combine (teachers (__init__ 10))
                       (rows (__init__ 10) (repeat 0 168))))
    by (vm_compute; reflexivity).
  split; [exact Hwf|]. split; [exact Hw|]. split; [exact Hlen|].
  split; [exact Hd|].
  exact (no_preference_violation_iff (__init__ 10) (repeat 0 168) _
           Hwf Hw Hlen Hd).
Defined.

Section ReadingTheCost.

Variable self : TeacherSchedulingProblem.
Hypothesis wf : well_formed self.

(** What the four methods return on the decoded schedule, by the totals. *)
Lemma counts_of_decoded (schedule : list Z) (d : dict (list Z)) :
  length schedule = __len__ self ->
  get_teacher_shifts self schedule = Ok d ->
  count_consecutive_shift_violations d = consecutive_total self schedule
  /\ (forall v,
        (exists l, count_shifts_per_week_violations self d = Ok (l, v))
        <-> v = overload_total self schedule)
  /\ (forall v,
        (exists l, count_teachers_per_shift_violations self d = Ok (l, v))
        <-> v = capacity_total self schedule)
  /\ (forall v,
        count_shift_preference_violations self d = Ok v
        <-> v = preference_total self schedule).
Proof.
  intros Hlen Hd. rewrite (decoded_is_rows self schedule d wf Hd).
  split; [rewrite count_consecutive_sum, values_decoded; reflexivity|].
  split; [|split]; intros v.
  - rewrite count_shifts_per_week_windows
      by apply (shifts_per_week_positive self wf).
    rewrite values_decoded. fold (overload_total self schedule). split.
    + intros [l H]. injection H as _ <-. reflexivity.
    + intros ->. eexists. reflexivity.
  - rewrite (count_teachers_per_shift_headcount self wf) by assumption.
    fold (capacity_total self schedule). split.
    + intros [l H]. injection H as _ <-. reflexivity.
    + intros ->. eexists. reflexivity.
  - rewrite (count_shift_preference_unwanted self wf) by assumption.
    fold (preference_total self schedule). split.
    + intros H. injection H as <-. reflexivity.
    + intros ->. reflexivity.
Qed.

End ReadingTheCost.

(** X9. With a positive penalty weight the cost tells the violations apart:
    the cost of a schedule of the right length is 0 exactly when all four
    counts are 0, and a cost below the weight means that the three hard counts
    are 0 and the cost is the preference count. *)
Theorem cost_reveals_violations
    (self : TeacherSchedulingProblem) (schedule : list Z) (d : dict (list Z)) :
  well_formed self ->
  0 < hard_constraint_penalty self ->
  length schedule = __len__ self ->
  get_teacher_shifts self schedule = Ok d ->
  (get_cost self schedule = Ok 0
   <-> count_consecutive_shift_violations d = 0
       /\ (exists l, count_shifts_per_week_violations self d = Ok (l, 0))
       /\ (exists l, count_teachers_per_shift_violations self d = Ok (l, 0))
       /\ count_shift_preference_violations self d = Ok 0)
  /\ (forall cost,
        get_cost self schedule = Ok cost ->
        cost < hard_constraint_penalty self ->
        count_consecutive_shift_violations d = 0
        /\ (exists l, count_shifts_per_week_violations self d = Ok (l, 0))
        /\ (exists l, count_teachers_per_shift_violations self d = Ok (l, 0))
        /\ count_shift_preference_violations self d = Ok cost).
Proof.
  intros wf Hp Hlen Hd.
  destruct (counts_of_decoded self wf schedule d Hlen Hd) as [Hc [Hw [Ht Hs]]].
  destruct (totals_nonneg self schedule) as [Nc [Nt [Nw Ns]]].
  rewrite (get_cost_totals self wf) by assumption.
  rewrite Hc, Hw, Ht, !Hs.
  set (c := consecutive_total self schedule) in *.
  set (t := capacity_total self schedule) in *.
  set (w := overload_total self schedule) in *.
  set (s := preference_total self schedule) in *.
  assert (Hhard : forall cost,
            hard_constraint_penalty self * (c + t + w) + s = cost ->
            cost < hard_constraint_penalty self -> c + t + w = 0).
  { intros cost E Hlt.
    destruct (Z.eq_dec (c + t + w) 0) as [E0|Hne]; [exact E0|].
    assert (H1 : hard_constraint_penalty self * 1
                 <= hard_constraint_penalty self * (c + t + w))
      by (apply Z.mul_le_mono_nonneg_l; lia).
    lia. }
  split.
  - split.
    + intros H. injection H as H.
      pose proof (Hhard 0 H Hp) as H0. rewrite H0, Z.mul_0_r in H.
      repeat split; lia.
    + intros [E1 [E2 [E3 E4]]]. rewrite <- E1, <- E2, <- E3, <- E4.
      f_equal. lia.
  - intros cost H Hlt. injection H as H.
    pose proof (Hhard cost H Hlt) as H0. rewrite H0, Z.mul_0_r in H.
    split; [lia|]. split; [apply Hw; lia|]. split; [apply Ht; lia|].
    apply Hs. lia.
Qed.

Lemma cost_reveals_violations_witness :
  well_formed (__init__ 10)
  /\ 0 < hard_constraint_penalty (__init__ 10)
  /\ length six_in_a_row = __len__ (__init__ 10)
  /\ get_teacher_shifts (__init__ 10) six_in_a_row
     = Ok (combine (teachers (__init__ 10)) (rows (__init__ 10) six_in_a_row))
  /\ (get_cost (__init__ 10) six_in_a_row = Ok 0
      <-> count_consecutive_shift_violations
            (combine (teachers (__init__ 10)) (rows (__init__ 10) six_in_a_row))
          = 0
          /\ (exists l,
                count_shifts_per_week_violations (__init__ 10)
                  (combine (teachers (__init__ 10))
                     (rows (__init__ 10) six_in_a_row))
                = Ok (l, 0))
          /\ (exists l,
                count_teachers_per_shift_violations (__init__ 10)
                  (combine (teachers (__init__ 10))
                     (rows (__init__ 10) six_in_a_row))
                = Ok (l, 0))
          /\ count_shift_preference_violations (__init__ 10)
               (combine (teachers (__init__ 10))
                  (rows (__init__ 10) six_in_a_row))
             = Ok 0).
Proof.
  assert (Hwf : well_formed (__init__ 10)) by by_evaluation.
  assert (Hp : 0 < hard_constraint_penalty (__init__ 10)) by (simpl; lia).
  assert (Hlen : length six_in_a_row = __len__ (__init__ 10)) by reflexivity.
  assert (Hd : get_teacher_shifts (__init__ 10) six_in_a_row
               = Ok (combine (teachers (__init__ 10))
                       (rows (__init__ 10) six_in_a_row)))
    by (vm_compute; reflexivity).
  split; [exact Hwf|]. split; [exact Hp|]. split; [exact Hlen|].
  split; [exact Hd|].
  exact (proj1 (cost_reveals_violations (__init__ 10) six_in_a_row _
                  Hwf Hp Hlen Hd)).
Defined.

(** ** The report *)

Section Report.

Lemma io_for_each_prints {A : Type} (body : A -> io unit) (f : A -> line)
    (l : list A) :
  (forall x out, In x l -> body x out = (out ++ [f x], Ok tt)) ->
  forall out, io_for_each body l out = (out ++ map f l, Ok tt).
Proof.
  induction l as [|x l IH]; intros H out.
  - cbn. rewrite app_nil_r. reflexivity.
  - cbn [io_for_each map]. unfold io_bind.
    rewrite (H x out (or_introl eq_refl)).
    rewrite IH by (intros y o Hy; apply H; right; exact Hy).
    rewrite <- app_assoc. reflexivity.
Qed.

Lemma io_for_each_map {A B : Type} (body : B -> io unit) (g : A -> B)
    (l : list A) (out : list line) :
  io_for_each body (map g l) out = io_for_each (fun x => body (g x)) l out.
Proof.
  revert out. induction l as [|x l IH]; intros out; [reflexivity|].
  cbn [map io_for_each]. unfold io_bind.
  destruct (body (g x) out) as [o [[]|e]]; [apply IH|reflexivity].
Qed.

Lemma lookup_entry {V : Type} (d : dict V) (t : string) (v : V) :
  NoDup (keys d) -> In (t, v) d -> lookup d t = Ok v.
Proof.
  induction d as [|[k w] d IH]; intros Hnd Hin; [contradiction|].
  cbn [keys map fst] in Hnd. inversion Hnd as [|? ? Hnotin Hnd']; subst.
  cbn [lookup]. destruct Hin as [E|Hin].
  - injection E as -> ->. rewrite String.eqb_refl. reflexivity.
  - destruct (String.eqb_spec k t) as [E|_].
    + subst k. exfalso. apply Hnotin.
      change t with (fst (t, v)). apply in_map. exact Hin.
    + apply IH; assumption.
Qed.

(** The loop over the keys prints the entries in order. *)
Lemma teacher_lines (d : dict (list Z)) :
  NoDup (keys d) ->
  forall out,
    io_for_each
      (fun teacher =>
         shifts <~ call (lookup d teacher) ;;
         print [PStr teacher; PStr ":"; PList shifts])
      (keys d) out
    = (out ++ map entry_line d, Ok tt).
Proof.
  intros Hnd out. unfold keys. rewrite io_for_each_map.
  apply io_for_each_prints. intros [t v] o Hin.
  unfold io_bind, call, print. cbn [fst].
  rewrite (lookup_entry d t v Hnd Hin). reflexivity.
Qed.

Variable self : TeacherSchedulingProblem.
Hypothesis wf : well_formed self.

(** What [print_schedule_info] prints once the schedule is decoded and the
    four counts are known. *)
Lemma report_of_counts (schedule : list Z) (d : dict (list Z))
    (weekly capacity : list Z * Z) (preference : Z) :
  get_teacher_shifts self schedule = Ok d ->
  NoDup (keys d) ->
  count_shifts_per_week_violations self d = Ok weekly ->
  count_teachers_per_shift_violations self d = Ok capacity ->
  count_shift_preference_violations self d = Ok preference ->
  forall out,
    print_schedule_info self schedule out
    = (out ++ [PStr "Schedule for each teacher:"] :: map entry_line d
           ++ count_lines (count_consecutive_shift_violations d) weekly
                capacity preference,
       Ok tt).
Proof.
  intros Hd Hnd Hw Hc Hp out. unfold print_schedule_info.
  unfold io_bind at 1. unfold call at 1. rewrite Hd.
  unfold io_bind at 1. unfold print at 1.
  unfold io_bind at 1. rewrite (teacher_lines d Hnd).
  unfold io_bind, call, print. rewrite Hw, Hc, Hp.
  unfold count_lines. rewrite <- !app_assoc. reflexivity.
Qed.

(** On a well-formed instance nothing in the report can raise. *)
Lemma report_counts_exist (schedule : list Z) :
  exists weekly capacity preference,
    count_shifts_per_week_violations self
      (combine (teachers self) (rows self schedule)) = Ok weekly
    /\ count_teachers_per_shift_violations self
         (combine (teachers self) (rows self schedule)) = Ok capacity
    /\ count_shift_preference_violations self
         (combine (teachers self) (rows self schedule)) = Ok preference.
Proof.
  destruct (preference_ok_when_present self wf
              (combine (teachers self) (rows self schedule))
              (seq 0 (length (shift_preference self)))) with (v := 0)
    as [p Hp].
  - intros k Hk. apply in_seq in Hk. lia.
  - intros k t _ Ht. unfold keys. rewrite keys_decoded.
    eapply nth_error_In. exact Ht.
  - eexists _, _, p.
    split; [apply count_shifts_per_week_windows,
              (shifts_per_week_positive self wf)|].
    split; [apply (count_teachers_per_shift_any self wf)|].
    unfold count_shift_preference_violations.
    rewrite (enumerate_by_index []). exact Hp.
Qed.

End Report.

Lemma decoded_keys_distinct
    (self : TeacherSchedulingProblem) (schedule : list Z) :
  well_formed self ->
  NoDup (keys (combine (teachers self) (rows self schedule))).
Proof.
  intros wf. unfold keys. rewrite keys_decoded. apply (wf_distinct self wf).
Qed.

(** X10. [print_schedule_info] does not check the length of the schedule: for
    any schedule it runs to the end without raising and prints the heading, one
    line per teacher with the teacher's decoded sequence, and the ten lines of
    the four counts, which are the values the four methods return on the
    decoded schedule. *)
Theorem report_for_any_schedule
    (self : TeacherSchedulingProblem) (schedule : list Z) (out : list line) :
  well_formed self ->
  exists d weekly capacity preference,
    get_teacher_shifts self schedule = Ok d
    /\ count_shifts_per_week_violations self d = Ok weekly
    /\ count_teachers_per_shift_violations self d = Ok capacity
    /\ count_shift_preference_violations self d = Ok preference
    /\ print_schedule_info self schedule out
       = (out ++ [PStr "Schedule for each teacher:"] :: map entry_line d
              ++ count_lines (count_consecutive_shift_violations d) weekly
                   capacity preference,
          Ok tt)
    /\ length (map entry_line d) = length (teachers self).
Proof.
  intros wf.
  destruct (report_counts_exist self wf schedule) as [w [c [p [Hw [Hc Hp]]]]].
  exists (combine (teachers self) (rows self schedule)), w, c, p.
  pose proof (get_teacher_shifts_rows self wf schedule) as Hd.
  split; [exact Hd|]. split; [exact Hw|]. split; [exact Hc|].
  split; [exact Hp|]. split.
  - apply (report_of_counts self schedule _ w c p Hd); try assumption.
    apply decoded_keys_distinct, wf.
  - rewrite length_map, length_combine, rows_length. unfold workers. lia.
Qed.

Lemma report_for_any_schedule_witness :
  well_formed (__init__ 10)
  /\ length [1; 1; 0] <> __len__ (__init__ 10)
  /\ exists d weekly capacity preference,
       get_teacher_shifts (__init__ 10) [1; 1; 0] = Ok d
       /\ count_shifts_per_week_violations (__init__ 10) d = Ok weekly
       /\ count_teachers_per_shift_violations (__init__ 10) d = Ok capacity
       /\ count_shift_preference_violations (__init__ 10) d = Ok preference
       /\ print_schedule_info (__init__ 10) [1; 1; 0] []
          = ([] ++ [PStr "Schedule for each teacher:"] :: map entry_line d
                ++ count_lines (count_consecutive_shift_violations d) weekly
                     capacity preference,
             Ok tt)
       /\ length (map entry_line d) = length (teachers (__init__ 10)).
Proof.
  assert (Hwf : well_formed (__init__ 10)) by by_evaluation.
  split; [exact Hwf|]. split; [vm_compute; lia|].
  exact (report_for_any_schedule (__init__ 10) [1; 1; 0] [] Hwf).
Defined.

(** X11. For a schedule of the right length the numbers [print_schedule_info]
    prints are the ones [get_cost] weighs: the cost is the penalty weight times
    the sum of the three printed hard counts plus the printed preference
    count. *)
Theorem report_agrees_with_cost
    (self : TeacherSchedulingProblem) (schedule : list Z) (out : list line) :
  well_formed self ->
  length schedule = __len__ self ->
  exists teacher_lines consecutive weekly capacity preference,
    print_schedule_info self schedule out
    = (out ++ [PStr "Schedule for each teacher:"] :: teacher_lines
           ++ count_lines consecutive weekly capacity preference,
       Ok tt)
    /\ get_cost self schedule
       = Ok (hard_constraint_penalty self
             * (consecutive + snd capacity + snd weekly)
             + preference).
Proof.
  intros wf Hlen.
  destruct (report_counts_exist self wf schedule) as [w [c [p [Hw [Hc Hp]]]]].
  pose proof (get_teacher_shifts_rows self wf schedule) as Hd.
  eexists _, _, w, c, p. split.
  - apply (report_of_counts self schedule _ w c p Hd); try assumption.
    apply decoded_keys_distinct, wf.
  - unfold get_cost. rewrite (length_test self schedule Hlen), Hd.
    cbn [bind]. rewrite Hw. cbn [bind]. rewrite Hc. cbn [bind].
    rewrite Hp. reflexivity.
Qed.

Lemma report_agrees_with_cost_witness :
  well_formed (__init__ 10)
  /\ length six_in_a_row = __len__ (__init__ 10)
  /\ exists teacher_lines consecutive weekly capacity preference,
       print_schedule_info (__init__ 10) six_in_a_row []
       = ([] ++ [PStr "Schedule for each teacher:"] :: teacher_lines
             ++ count_lines consecutive weekly capacity preference,
          Ok tt)
       /\ get_cost (__init__ 10) six_in_a_row
          = Ok (hard_constraint_penalty (__init__ 10)
                * (consecutive + snd capacity + snd weekly)
                + preference).
Proof.
  assert (Hwf : well_formed (__init__ 10)) by by_evaluation.
  assert (Hlen : length six_in_a_row = __len__ (__init__ 10)) by reflexivity.
  split; [exact Hwf|]. split; [exact Hlen|].
  exact (report_agrees_with_cost (__init__ 10) six_in_a_row [] Hwf Hlen).
Defined.

(** X12. The fitness function of [solution.py]: for an individual of 168
    entries it returns a tuple of one value, the cost under the penalty weight
    10, which is never negative, whatever the entries; for any other length it
    raises the [ValueError] of [get_cost]. *)
Theorem solution_fitness (individual : list Z) :
  (length individual = 168%nat ->
   exists cost,
     Solution.get_cost individual = Ok [cost]
     /\ get_cost (__init__ 10) individual = Ok cost
     /\ 0 <= cost)
  /\ (length individual <> 168%nat ->
      Solution.get_cost individual
      = Raise (ValueError "size of schedule list should be equal to " [168])).
Proof.
  unfold Solution.get_cost, Solution.nsp, Solution.HARD_CONSTRAINT_PENALTY.
  split.
  - intros Hlen. rewrite (init_get_cost 10 individual Hlen). cbn [bind].
    eexists. split; [reflexivity|]. split; [reflexivity|].
    destruct (totals_nonneg (__init__ 10) individual) as [Hc [Ht [Hw Hs]]].
    lia.
  - intros Hne. unfold get_cost.
    change (__len__ (__init__ 10)) with 168%nat.
    destruct (Nat.eqb_spec (length individual) 168) as [E|_];
      [contradiction|reflexivity].
Qed.

Lemma solution_fitness_witness :
  length six_in_a_row = 168%nat
  /\ exists cost,
       Solution.get_cost six_in_a_row = Ok [cost]
       /\ get_cost (__init__ 10) six_in_a_row = Ok cost
       /\ 0 <= cost.
Proof.
  assert (Hlen : length six_in_a_row = 168%nat) by reflexivity.
  split; [exact Hlen|].
  exact (proj1 (solution_fitness six_in_a_row) Hlen).
Defined.

Lemma randint2_length (random : nat -> bool) (size : nat) :
  length (randint2 random size) = size.
Proof. unfold randint2. rewrite length_map, length_seq. reflexivity. Qed.

Lemma randint2_binary (random : nat -> bool) (size : nat) :
  binary (randint2 random size).
Proof.
  unfold binary, randint2. rewrite Forall_forall. intros x Hx.
  apply in_map_iff in Hx. destruct Hx as [i [E _]]. subst x.
  destruct (random i); [right|left]; reflexivity.
Qed.

(** X13. [main] of [teachers.py] draws an array of [len(teachers)] entries, each
    0 or 1, so the length check of [get_cost] cannot fail: whatever is drawn,
    it prints the three opening lines, the report of 19 lines, and ends with
    the line of the total cost, which is the value of [get_cost] on the drawn
    array and is not negative. *)
Theorem main_runs_to_the_end (random : nat -> bool) (out : list line) :
  let random_solution := randint2 random 168 in
  length random_solution = 168%nat
  /\ binary random_solution
  /\ exists report cost,
       main random out
       = (out ++ [[PStr "Random Solution = "]; [PList random_solution]; []]
              ++ report ++ [[PStr "Total Cost = "; PInt cost]],
          Ok tt)
       /\ length report = 19%nat
       /\ get_cost (__init__ 10) random_solution = Ok cost
       /\ 0 <= cost.
Proof.
  intros random_solution.
  assert (Hlen : length random_solution = 168%nat) by apply randint2_length.
  split; [exact Hlen|]. split; [apply randint2_binary|].
  pose proof (init_well_formed 10) as wf.
  destruct (report_counts_exist (__init__ 10) wf random_solution)
    as [w [c [p [Hw [Hc Hp]]]]].
  pose proof (get_teacher_shifts_rows (__init__ 10) wf random_solution) as Hd.
  pose proof (report_of_counts (__init__ 10) random_solution _ w c p Hd
                (decoded_keys_distinct (__init__ 10) random_solution wf)
                Hw Hc Hp) as Hreport.
  exists ([PStr "Schedule for each teacher:"]
            :: map entry_line
                 (combine (teachers (__init__ 10))
                    (rows (__init__ 10) random_solution))
            ++ count_lines
                 (count_consecutive_shift_violations
                    (combine (teachers (__init__ 10))
                       (rows (__init__ 10) random_solution)))
                 w c p).
  exists (10 * (consecutive_total (__init__ 10) random_solution
                + capacity_total (__init__ 10) random_solution
                + overload_total (__init__ 10) random_solution)
          + preference_total (__init__ 10) random_solution).
  split; [|split; [|split]].
  - unfold main. cbv zeta. change (__len__ (__init__ 10)) with 168%nat.
    fold random_solution.
    unfold io_bind at 1 2 3 4. unfold print at 1 2 3.
    rewrite Hreport. unfold io_bind, call, print.
    rewrite (init_get_cost 10 random_solution Hlen).
    rewrite <- !app_assoc. reflexivity.
  - cbn [length]. rewrite length_app, length_map, length_combine, rows_length.
    reflexivity.
  - apply (init_get_cost 10 random_solution Hlen).
  - destruct (totals_nonneg (__init__ 10) random_solution) as [Nc [Nt [Nw Ns]]].
    apply Z.add_nonneg_nonneg; [apply Z.mul_nonneg_nonneg; lia|exact Ns].
Qed.

(** ** Entries other than 1 *)

Section Flags.

Lemma worked_flag_test (x : Z) : (worked_flag x =? 1) = (x =? 1).
Proof. unfold worked_flag. destruct (Z.eqb_spec x 1); [subst|]; reflexivity. Qed.

Lemma adjacent_ones_flags (l : list Z) :
  adjacent_ones (map worked_flag l) = adjacent_ones l.
Proof.
  unfold adjacent_ones. rewrite length_map. f_equal.
  apply filter_ext_length. intros j _.
  change 0 with (worked_flag 0) at 1 2.
  rewrite !(map_nth worked_flag), !worked_flag_test. reflexivity.
Qed.

Lemma values_flagged (d : dict (list Z)) :
  values (flagged d) = map (map worked_flag) (values d).
Proof. unfold values, flagged. rewrite !map_map. reflexivity. Qed.

Lemma lookup_flagged (d : dict (list Z)) (t : string) :
  lookup (flagged d) t
  = match lookup d t with
    | Ok shifts => Ok (map worked_flag shifts)
    | Raise e => Raise e
    end.
Proof.
  induction d as [|[k v] d IH]; [reflexivity|].
  cbn [flagged map lookup fst snd]. destruct (String.eqb k t); [reflexivity|].
  apply IH.
Qed.

Lemma preference_loop_flags (p shifts : list Z) (v : Z) :
  fold_left
    (fun violations '(pref, shift) =>
       if (pref =? 0) && (shift =? 1) then violations + 1 else violations)
    (combine p (map worked_flag shifts)) v
  = fold_left
      (fun violations '(pref, shift) =>
         if (pref =? 0) && (shift =? 1) then violations + 1 else violations)
      (combine p shifts) v.
Proof.
  revert shifts v. induction p as [|x p IH]; intros [|y shifts] v;
    try reflexivity.
  cbn [map combine fold_left]. rewrite worked_flag_test. apply IH.
Qed.

End Flags.

(** X14. The consecutive-shift count and the preference count test entries for
    equality with 1, so an entry other than 1 counts as not worked: replacing
    every entry other than 1 by 0 changes neither count, nor whether the
    preference count raises, for any instance and any dictionary. *)
Theorem only_ones_count_as_work
    (self : TeacherSchedulingProblem) (d : dict (list Z)) :
  count_consecutive_shift_violations (flagged d)
  = count_consecutive_shift_violations d
  /\ count_shift_preference_violations self (flagged d)
     = count_shift_preference_violations self d.
Proof.
  split.
  - rewrite !count_consecutive_sum, values_flagged, map_map. f_equal.
    apply map_ext. intros ts. apply adjacent_ones_flags.
  - unfold count_shift_preference_violations. apply for_each_ext.
    intros v [k p] _.
    destruct (floordiv (shifts_per_week self) (shift_per_day self)) as [n|e];
      [|reflexivity].
    cbn [bind]. cbv zeta.
    destruct (getitem (teachers self) k) as [t|e]; [|reflexivity].
    cbn [bind]. rewrite lookup_flagged.
    destruct (lookup d t) as [shifts|e]; [|reflexivity].
    cbn [bind]. f_equal. apply preference_loop_flags.
Qed.

(** ** The order of the teachers *)

Section TeacherOrder.

Lemma sum_permutation (l1 l2 : list Z) : Permutation l1 l2 -> sum l1 = sum l2.
Proof.
  induction 1 as [|x la lb _ IH|x y la|la lb lc _ IH1 _ IH2].
  - reflexivity.
  - rewrite !sum_cons, IH. reflexivity.
  - rewrite !sum_cons. lia.
  - rewrite IH1. exact IH2.
Qed.

Lemma sum_map_permutation {A : Type} (f : A -> Z) (l1 l2 : list A) :
  Permutation l1 l2 -> sum (map f l1) = sum (map f l2).
Proof. intros H. apply sum_permutation, Permutation_map, H. Qed.

Lemma columns_permutation (n : nat) (ls1 ls2 : list (list Z)) :
  Permutation ls1 ls2 ->
  Forall (fun l => length l = n) ls1 ->
  map sum (zip_star ls1) = map sum (zip_star ls2).
Proof.
  intros Hp Hlen.
  destruct ls1 as [|l ls1].
  - apply Permutation_nil in Hp. subst ls2. reflexivity.
  - assert (Hne : ls2 <> []).
    { intros ->. apply Permutation_sym, Permutation_nil in Hp. discriminate. }
    assert (Hlen2 : Forall (fun l => length l = n) ls2).
    { rewrite Forall_forall in *. intros r Hr. apply Hlen.
      eapply Permutation_in; [apply Permutation_sym, Hp|exact Hr]. }
    rewrite (zip_star_columns 0 n (l :: ls1)) by (discriminate || assumption).
    rewrite (zip_star_columns 0 n ls2) by assumption.
    rewrite !map_map. apply map_ext. intros j.
    apply sum_map_permutation, Hp.
Qed.

End TeacherOrder.

(** X15. The three hard counts do not depend on which teacher holds which
    sequence: for two dictionaries whose sequences are the same up to their
    order (all of one length), the consecutive-shift counts are equal, the
    per-week violation counts are equal, and the per-shift method returns the
    same headcounts and the same count. *)
Theorem hard_counts_ignore_teacher_order
    (self : TeacherSchedulingProblem) (d1 d2 : dict (list Z)) (n : nat) :
  well_formed self ->
  Permutation (values d1) (values d2) ->
  Forall (fun ts => length ts = n) (values d1) ->
  count_consecutive_shift_violations d1 = count_consecutive_shift_violations d2
  /\ (exists weekly1 weekly2 violations,
        count_shifts_per_week_violations self d1 = Ok (weekly1, violations)
        /\ count_shifts_per_week_violations self d2 = Ok (weekly2, violations))
  /\ count_teachers_per_shift_violations self d1
     = count_teachers_per_shift_violations self d2.
Proof.
  intros wf Hp Hlen. split; [|split].
  - rewrite !count_consecutive_sum. apply sum_map_permutation, Hp.
  - eexists _, _, _. split.
    + apply count_shifts_per_week_windows, (shifts_per_week_positive self wf).
    + rewrite count_shifts_per_week_windows
        by apply (shifts_per_week_positive self wf).
      do 2 f_equal. apply sum_map_permutation, Permutation_sym, Hp.
  - rewrite !(count_teachers_per_shift_any self wf).
    rewrite (columns_permutation n (values d1) (values d2) Hp Hlen).
    reflexivity.
Qed.

Lemma hard_counts_ignore_teacher_order_witness :
  well_formed (__init__ 10)
  /\ Permutation (values [("A"%string, [1; 1; 0]); ("B"%string, [0; 1; 1])])
       (values [("A"%string, [0; 1; 1]); ("B"%string, [1; 1; 0])])
  /\ Forall (fun ts => length ts = 3%nat)
       (values [("A"%string, [1; 1; 0]); ("B"%string, [0; 1; 1])])
  /\ count_teachers_per_shift_violations (__init__ 10)
       [("A"%string, [1; 1; 0]); ("B"%string, [0; 1; 1])]
     = count_teachers_per_shift_violations (__init__ 10)
         [("A"%string, [0; 1; 1]); ("B"%string, [1; 1; 0])].
Proof.
  assert (Hwf : well_formed (__init__ 10)) by by_evaluation.
  assert (Hp : Permutation
                 (values [("A"%string, [1; 1; 0]); ("B"%string, [0; 1; 1])])
                 (values [("A"%string, [0; 1; 1]); ("B"%string, [1; 1; 0])]))
    by (cbn; apply perm_swap).
  assert (Hlen : Forall (fun ts => length ts = 3%nat)
                   (values [("A"%string, [1; 1; 0]); ("B"%string, [0; 1; 1])]))
    by (cbn; repeat constructor).
  split; [exact Hwf|]. split; [exact Hp|]. split; [exact Hlen|].
  exact (proj2 (proj2 (hard_counts_ignore_teacher_order (__init__ 10)
                         [("A"%string, [1; 1; 0]); ("B"%string, [0; 1; 1])]
                         [("A"%string, [0; 1; 1]); ("B"%string, [1; 1; 0])]
                         3 Hwf Hp Hlen))).
Defined.
